(** * Security Paper Search: the paper-search core (paperSearch.js)

    A shallow embedding of the registry access functions, the query
    builder, the venue matcher and the search orchestrator, followed by
    the properties of the specification that concern them.

    Conventions of the embedding.
    - JavaScript strings are [string]s over the ASCII alphabet, where
      [toLowerCase] and [toUpperCase] act on the letters A-Z and a-z.
    - Numbers that the code handles are years and limits: a [JsNum] is
      an integer or NaN (what [parseInt] yields on text without digits).
    - An ordinary object used as a dictionary is an [obj]: its own
      properties in property order; reading a name that is not an own
      property falls through to [Object.prototype].
    - [conferences.json] is not among the sources: the two tier tables
      are Section variables, given as the members of the JSON text.
    - The upstream service is a Section variable mapping the request to
      its reply; a run yields the events it caused and its outcome. *)

From Stdlib Require Import String Ascii List ZArith NArith Lia Bool.
From Stdlib Require Import DecimalString DecimalZ.
From Stdlib Require Import Permutation Sorted.
From Stdlib Require Orders Mergesort.
From Equations Require Import Equations.
Import ListNotations.

Local Open Scope string_scope.
Local Open Scope list_scope.
Local Open Scope Z_scope.

Set Implicit Arguments.

(* ===================================================================== *)
(** ** JavaScript primitives *)
(* ===================================================================== *)

Module Js.

(** [String.prototype.toLowerCase] / [toUpperCase], one character: exact
    on ASCII characters; a character outside ASCII is left as it is,
    where JavaScript maps the letters of Unicode. *)
Definition lower_ascii (c : ascii) : ascii :=
  let n := N_of_ascii c in
  if ((65 <=? n) && (n <=? 90))%N then ascii_of_N (n + 32) else c.

Definition upper_ascii (c : ascii) : ascii :=
  let n := N_of_ascii c in
  if ((97 <=? n) && (n <=? 122))%N then ascii_of_N (n - 32) else c.

Fixpoint toLowerCase (s : string) : string :=
  match s with
  | EmptyString => EmptyString
  | String c r => String (lower_ascii c) (toLowerCase r)
  end.

Fixpoint toUpperCase (s : string) : string :=
  match s with
  | EmptyString => EmptyString
  | String c r => String (upper_ascii c) (toUpperCase r)
  end.

(** [s.includes(t)]: [t] occurs in [s] at some position. *)
Fixpoint includes (s t : string) : bool :=
  String.prefix t s ||
  match s with
  | EmptyString => false
  | String _ r => includes r t
  end.

(** [xs.join(sep)] on an array of strings. *)
Fixpoint join (sep : string) (xs : list string) : string :=
  match xs with
  | [] => ""
  | [x] => x
  | x :: r => (x ++ sep ++ join sep r)%string
  end.

(** [xs.includes(k)] on an array of strings. *)
Definition array_includes (xs : list string) (k : string) : bool :=
  existsb (String.eqb k) xs.

(** Truthiness of a string: the empty string is falsy. *)
Definition truthy_string (s : string) : bool :=
  negb (String.eqb s "").

(** [a || b] where [a], [b] are strings or undefined. *)
Definition or_else (a b : option string) : option string :=
  match a with
  | Some s => if truthy_string s then a else b
  | None => b
  end.

(** Years and limits: an integer, or NaN. *)
Inductive JsNum := NaN | Int (z : Z).

(** [n.toString()]: the decimal digits, as JavaScript prints integers
    below 10^21. *)
Definition Z_toString (z : Z) : string :=
  NilZero.string_of_int (Z.to_int z).

Definition toString (n : JsNum) : string :=
  match n with
  | NaN => "NaN"
  | Int z => Z_toString z
  end.

(** [a < b] and [a > b]: false as soon as one side is NaN. *)
Definition less (a b : JsNum) : bool :=
  match a, b with
  | Int x, Int y => x <? y
  | _, _ => false
  end.

Definition greater (a b : JsNum) : bool := less b a.

(** White space skipped by [parseInt]: space, TAB, LF, VT, FF, CR. *)
Definition is_space (c : ascii) : bool :=
  let n := N_of_ascii c in
  ((n =? 32) || ((9 <=? n) && (n <=? 13)))%N.

Definition digit_of (c : ascii) : option Z :=
  let n := N_of_ascii c in
  if ((48 <=? n) && (n <=? 57))%N then Some (Z.of_N (n - 48)) else None.

Fixpoint skip_spaces (s : string) : string :=
  match s with
  | String c r => if is_space c then skip_spaces r else s
  | EmptyString => s
  end.

(** The longest run of decimal digits at the head of [s], read with
    accumulator [acc]; [None] when there is no digit at all. *)
Fixpoint digits (acc : option Z) (s : string) : option Z :=
  match s with
  | String c r =>
      match digit_of c with
      | Some d =>
          digits (Some (10 * match acc with Some a => a | None => 0 end + d)) r
      | None => acc
      end
  | EmptyString => acc
  end.

(** [parseInt(s, 10)]: leading white space, an optional sign, then
    digits; NaN when no digit follows.  The value is the exact integer,
    as it is in JavaScript up to 2^53. *)
Definition parseInt (s : string) : JsNum :=
  let body (neg : bool) (r : string) :=
    match digits None r with
    | Some v => Int (if neg then - v else v)
    | None => NaN
    end in
  match skip_spaces s with
  | String "-" r => body true r
  | String "+" r => body false r
  | r => body false r
  end.

End Js.

Import Js.

(* ===================================================================== *)
(** ** Ordinary objects used as dictionaries *)
(* ===================================================================== *)

Module JsObject.

(** The own enumerable properties, in the order [Object.keys] and
    [Object.entries] list them: array indices ascending, then the other
    names in creation order. *)
Definition obj (V : Type) : Type := list (string * V).

Definition keys {V} (o : obj V) : list string := map fst o.
Definition entries {V} (o : obj V) : list (string * V) := o.

Fixpoint own_get {V} (o : obj V) (k : string) : option V :=
  match o with
  | [] => None
  | (k', v) :: r => if String.eqb k k' then Some v else own_get r k
  end.

(** An array index is the canonical decimal form of an integer in
    [0, 2^32 - 2]. *)
Definition array_index (k : string) : option Z :=
  match digits None k with
  | Some i =>
      if String.eqb (Z_toString i) k && (i <=? 4294967294) then Some i
      else None
  | None => None
  end.

Fixpoint replace {V} (o : obj V) (k : string) (v : V) : obj V :=
  match o with
  | [] => []
  | (k', v') :: r =>
      if String.eqb k k' then (k', v) :: r else (k', v') :: replace r k v
  end.

(** A new array index goes before the first name that is not a smaller
    array index. *)
Fixpoint insert_index {V} (o : obj V) (i : Z) (k : string) (v : V) : obj V :=
  match o with
  | [] => [(k, v)]
  | (k', v') :: r =>
      match array_index k' with
      | Some j =>
          if j <? i then (k', v') :: insert_index r i k v
          else (k, v) :: o
      | None => (k, v) :: o
      end
  end.

(** Defining property [k]: an existing property keeps its place and
    takes the new value, a new one is placed by the ordering rule. *)
Definition set {V} (o : obj V) (k : string) (v : V) : obj V :=
  match own_get o k with
  | Some _ => replace o k v
  | None =>
      match array_index k with
      | Some i => insert_index o i k v
      | None => o ++ [(k, v)]
      end
  end.

(** [{...target, ...source}] onto an already built [target]. *)
Definition spread {V} (target source : obj V) : obj V :=
  fold_left (fun o kv => set o (fst kv) (snd kv)) source target.

(** The object that [JSON.parse] builds from the members of an object
    literal, in the order of the text. *)
Definition of_members {V} (ms : list (string * V)) : obj V :=
  spread [] ms.

(** Names that every ordinary object inherits from [Object.prototype]. *)
Definition prototype_names : list string :=
  [ "constructor"; "__defineGetter__"; "__defineSetter__";
    "hasOwnProperty"; "__lookupGetter__"; "__lookupSetter__";
    "isPrototypeOf"; "propertyIsEnumerable"; "toString"; "valueOf";
    "__proto__"; "toLocaleString" ].

(** The result of [o[k]]: an own value, a member of [Object.prototype]
    (a function, or the prototype object itself for [__proto__]), or
    undefined. *)
Inductive Lookup (V : Type) : Type :=
| Own (v : V)
| Inherited (name : string)
| Undefined.
Arguments Inherited {V} name.
Arguments Undefined {V}.

Definition get {V} (o : obj V) (k : string) : Lookup V :=
  match own_get o k with
  | Some v => Own v
  | None =>
      if existsb (String.eqb k) prototype_names then Inherited k
      else Undefined
  end.

Definition is_own {V} (x : Lookup V) : bool :=
  match x with
  | Own _ => true
  | _ => false
  end.

(** [!x] for the result of a property read whose own values are
    objects. *)
Definition falsy {V} (x : Lookup V) : bool :=
  match x with
  | Undefined => true
  | _ => false
  end.

End JsObject.

Import JsObject.

(* ===================================================================== *)
(** ** Data model (types.ts) *)
(* ===================================================================== *)

Inductive Tier := top | second.

(** The [tier] of a request: 'top' | 'second' | 'all'. *)
Inductive TierFilter := tier_top | tier_second | tier_all.

Record ConferenceInfo := {
  name : string;
  shortName : string;
  tier : Tier;
  urls : obj string;
  dblpKey : string
}.

Module SearchOptions.
Record t := {
  keyword : option string;
  author : option string;
  yearFrom : option Z;
  yearTo : option Z;
  conferences : option (list string);
  tier : option TierFilter;
  limit : option Z
}.
End SearchOptions.

(** [authors.author]: one [{text}] object or an array of them. *)
Inductive AuthorData :=
| OneAuthor (text : string)
| ManyAuthors (texts : list string).

Module DblpInfo.
Record t := {
  title : string;
  authors : option AuthorData;
  year : string;
  venue : option string;
  url : option string;
  doi : option string;
  ee : option string
}.
End DblpInfo.

Record DblpHit := { info : DblpInfo.t }.

Module Paper.
Record t := {
  title : string;
  authors : list string;
  year : JsNum;
  conference : option string;
  conferenceFull : option string;
  tier : Tier;
  url : option string;
  doi : option string;
  conferenceUrl : option string
}.
End Paper.

(* ===================================================================== *)
(** ** Exceptions, events and runs *)
(* ===================================================================== *)

Inductive Exn :=
| Error (msg : string)
| TypeError (msg : string)
| FetchRejected
| JsonRejected.

(** The GET request sent to https://dblp.org/search/publ/api: its three
    search parameters and the User-Agent header. *)
Record Request := {
  q : string;
  format : string;
  h : string;
  userAgent : string
}.

(** What the upstream service does with a request. *)
Inductive Reply :=
| NetworkFailure
| NotOk (status : Z)
| NotJson
| Data (hit : option (list DblpHit)).

Inductive Event :=
| Fetch (r : Request)
| ConsoleError (e : Exn).

(** Synchronous code that may throw. *)
Definition Res (A : Type) : Type := (Exn + A)%type.

(** A run: the events in order, then the exception or the value. *)
Definition Eff (A : Type) : Type := (list Event * Res A)%type.

Module Run.
Definition ret {A} (a : A) : Eff A := ([], inr a).
Definition throw {A} (e : Exn) : Eff A := ([], inl e).
Definition emit (ev : Event) : Eff unit := ([ev], inr tt).
Definition lift {A} (r : Res A) : Eff A := ([], r).

Definition bind {A B} (m : Eff A) (f : A -> Eff B) : Eff B :=
  match m with
  | (t, inl e) => (t, inl e)
  | (t, inr a) => let (t', r) := f a in (t ++ t', r)
  end.

(** [try { m } catch (error) { handler error }] *)
Definition try_catch {A} (m : Eff A) (handler : Exn -> Eff A) : Eff A :=
  match m with
  | (t, inl e) => let (t', r) := handler e in (t ++ t', r)
  | (t, inr a) => (t, inr a)
  end.

Definition events {A} (m : Eff A) : list Event := fst m.
Definition outcome {A} (m : Eff A) : Res A := snd m.
End Run.

Declare Scope run_scope.
Notation "x <- m ;; k" := (Run.bind m (fun x => k))
  (at level 61, m at next level, right associativity) : run_scope.
Notation "m ;;; k" := (Run.bind m (fun _ => k))
  (at level 61, right associativity) : run_scope.

(** Binding in synchronous code that may throw. *)
Definition Res_bind {A B} (r : Res A) (f : A -> Res B) : Res B :=
  match r with
  | inl e => inl e
  | inr a => f a
  end.

Notation "x <-- r ;; k" := (Res_bind r (fun x => k))
  (at level 61, r at next level, right associativity) : run_scope.

Local Open Scope run_scope.

(* ===================================================================== *)
(** ** The program (paperSearch.js) *)
(* ===================================================================== *)

(** DBLP venue key mappings for accurate matching. *)
Definition DBLP_VENUE_MAPPINGS : obj (list string) :=
  of_members
    [ ("sp", ["sp"; "ieee symposium on security and privacy"; "s&p"; "oakland"]);
      ("usenix", ["uss"; "usenix security"; "usenix security symposium"]);
      ("ccs", ["ccs"; "acm ccs"; "computer and communications security"]);
      ("ndss", ["ndss"; "network and distributed system security"]);
      ("acsac", ["acsac"; "annual computer security applications"]);
      ("raid", ["raid"; "research in attacks"; "intrusions and defenses"]);
      ("esorics", ["esorics"; "european symposium on research in computer security"]) ].

(** A number option is truthy when it is given and not zero. *)
Definition truthy_num (n : option Z) : option Z :=
  match n with
  | Some z => if z =? 0 then None else Some z
  | None => None
  end.

(** A string option is truthy when it is given and not empty. *)
Definition truthy_str (s : option string) : option string :=
  match s with
  | Some x => if truthy_string x then Some x else None
  | None => None
  end.

(** Every entry has a non-empty upstream venue identifier. *)
Definition nonEmptyIdentifiers (o : obj ConferenceInfo) : bool :=
  forallb (fun kv => truthy_string (dblpKey (snd kv))) o.

(** Every key is written in lower case. *)
Definition lowerCaseKeys (o : obj ConferenceInfo) : bool :=
  forallb (fun kv => String.eqb (toLowerCase (fst kv)) (fst kv)) o.

(** [xs?.length] as a condition. *)
Definition has_length (xs : option (list string)) : bool :=
  match xs with
  | Some (_ :: _) => true
  | _ => false
  end.

(** The hits of a reply: [data.result?.hits?.hit || []]. *)
Definition hitsOf (hit : option (list DblpHit)) : list DblpHit :=
  match hit with
  | Some hs => hs
  | None => []
  end.

(** The options that [searchByConference] passes on. *)
Definition conferenceOptions (conferenceKey : string) (year : Z)
  : SearchOptions.t :=
  {| SearchOptions.keyword := None;
     SearchOptions.author := None;
     SearchOptions.yearFrom := Some year;
     SearchOptions.yearTo := Some year;
     SearchOptions.conferences := Some [conferenceKey];
     SearchOptions.tier := None;
     SearchOptions.limit := Some 200 |}.

(** [options.conferences] where the code has found it to have a length. *)
Definition requested (options : SearchOptions.t) : list string :=
  match SearchOptions.conferences options with
  | Some cs => cs
  | None => []
  end.

Section Program.

(** The members of [conferences.top_tier] and [conferences.second_tier]
    in [conferences.json], a file that is not among the sources. *)
Variables top_tier_members second_tier_members : list (string * ConferenceInfo).

(** The upstream bibliographic service. *)
Variable upstream : Request -> Reply.

Definition top_tier : obj ConferenceInfo := of_members top_tier_members.
Definition second_tier : obj ConferenceInfo := of_members second_tier_members.

Definition getAllConferences : obj ConferenceInfo :=
  spread (spread [] top_tier) second_tier.

Definition getConferencesByTier (t : TierFilter) : obj ConferenceInfo :=
  match t with
  | tier_top => top_tier
  | tier_second => second_tier
  | tier_all => getAllConferences
  end.

Definition getConferenceInfo (key : string) : Lookup ConferenceInfo :=
  let all := getAllConferences in
  get all (toLowerCase key).

(** Get conference website URL for a specific year.  The year is
    printed in decimal (or as NaN), which is never the name of a member
    of [Object.prototype], so the read of [conf.urls] is a read of an
    own property.  On a value inherited from [Object.prototype],
    [conf.urls] is undefined and indexing it throws. *)
Definition getConferenceWebsiteUrl (key : string) (year : JsNum)
  : Res (option string) :=
  match getConferenceInfo key with
  | Undefined => inr None
  | Own conf => inr (own_get (urls conf) (toString year))
  | Inherited _ =>
      inl (TypeError "Cannot read properties of undefined")
  end.

(** [conf?.dblpKey]: a member of [Object.prototype] has no such
    property. *)
Definition dblpKey_of (c : string) : option string :=
  match getConferenceInfo c with
  | Own conf => Some (dblpKey conf)
  | Inherited _ => None
  | Undefined => None
  end.

(** [.filter(Boolean)] on an array of strings and undefineds. *)
Fixpoint filter_Boolean (xs : list (option string)) : list string :=
  match xs with
  | [] => []
  | x :: r =>
      match truthy_str x with
      | Some s => s :: filter_Boolean r
      | None => filter_Boolean r
      end
  end.

Definition targetConferences (options : SearchOptions.t) : list string :=
  if has_length (SearchOptions.conferences options)
  then requested options
  else keys (getConferencesByTier
               (match SearchOptions.tier options with
                | Some t => t
                | None => tier_all
                end)).

Definition buildDblpQuery (options : SearchOptions.t) : string :=
  let parts : list string := [] in
  let parts :=
    match truthy_str (SearchOptions.keyword options) with
    | Some keyword => parts ++ [keyword]
    | None => parts
    end in
  let parts :=
    match truthy_str (SearchOptions.author options) with
    | Some author => parts ++ [("author:" ++ author)%string]
    | None => parts
    end in
  (* Build venue filter *)
  let venueQueries :=
    filter_Boolean (map dblpKey_of (targetConferences options)) in
  let parts :=
    if (0 <? Z.of_nat (length venueQueries))
    then
      let venueFilter :=
        join "|" (map (fun v => ("venue:" ++ v ++ ":")%string) venueQueries) in
      parts ++ [venueFilter]
    else parts in
  join " " parts.

(** The body of the loop of [matchConference] for one registry entry:
    whether the function returns this entry.  The auxiliary names of a
    key are read from [DBLP_VENUE_MAPPINGS]; a value inherited from
    [Object.prototype] is truthy and cannot be iterated. *)
Definition matchEntry (venueLower key : string) (conf : ConferenceInfo)
  : Res bool :=
  if includes venueLower (dblpKey conf) then inr true
  else
    mappings <-- match get DBLP_VENUE_MAPPINGS key with
                 | Own ms => inr ms
                 | Undefined => inr []
                 | Inherited _ => inl (TypeError "object is not iterable")
                 end ;;
    if existsb (includes venueLower) mappings then inr true
    else
      inr (includes venueLower key
           || includes venueLower (toLowerCase (shortName conf))).

Fixpoint matchLoop (venueLower : string)
    (es : list (string * ConferenceInfo))
  : Res (option (string * ConferenceInfo)) :=
  match es with
  | [] => inr None
  | (key, conf) :: rest =>
      hit <-- matchEntry venueLower key conf ;;
      if hit then inr (Some (key, conf)) else matchLoop venueLower rest
  end.

(** Improved venue matching using multiple identifiers. *)
Definition matchConference (venue : string)
  : Res (option (string * ConferenceInfo)) :=
  let venueLower := toLowerCase venue in
  let allConfs := getAllConferences in
  matchLoop venueLower (entries allConfs).

(** Extract authors *)
Definition extractAuthors (i : DblpInfo.t) : list string :=
  match DblpInfo.authors i with
  | Some (ManyAuthors texts) => texts
  | Some (OneAuthor text) => [text]
  | None => []
  end.

(** The filter by requested conferences: whether the hit is skipped. *)
Definition notRequested (options : SearchOptions.t)
    (matched : option (string * ConferenceInfo)) : bool :=
  has_length (SearchOptions.conferences options)
  && match matched with
     | Some (key, _) =>
         negb (array_includes (requested options) key)
     | None => false
     end.

(** The year filter: whether the hit is skipped. *)
Definition outsideYears (options : SearchOptions.t) (year : JsNum) : bool :=
  match truthy_num (SearchOptions.yearFrom options) with
  | Some yearFrom => less year (Int yearFrom)
  | None => false
  end
  || match truthy_num (SearchOptions.yearTo options) with
     | Some yearTo => greater year (Int yearTo)
     | None => false
     end.

(** [info.venue || ''], the text given to the matcher. *)
Definition venueText (i : DblpInfo.t) : string :=
  match truthy_str (DblpInfo.venue i) with
  | Some v => v
  | None => ""
  end.

(** The object pushed onto [papers]. *)
Definition paperOf (i : DblpInfo.t) (authors : list string) (year : JsNum)
    (matched : option (string * ConferenceInfo))
    (confWebsiteUrl : option string) : Paper.t :=
  {| Paper.title := DblpInfo.title i;
     Paper.authors := authors;
     Paper.year := year;
     Paper.conference :=
       or_else (option_map (fun m => shortName (snd m)) matched)
               (DblpInfo.venue i);
     Paper.conferenceFull :=
       or_else (option_map (fun m => name (snd m)) matched)
               (DblpInfo.venue i);
     Paper.tier :=
       match matched with
       | Some (_, conf) => tier conf
       | None => second
       end;
     Paper.url := or_else (DblpInfo.ee i) (DblpInfo.url i);
     Paper.doi := DblpInfo.doi i;
     Paper.conferenceUrl := confWebsiteUrl (* Reference link to conference website *)
  |}.

(** One turn of the loop over the hits: [None] is [continue], [Some p]
    is [papers.push(p)]. *)
Definition processHit (options : SearchOptions.t) (hit : DblpHit)
  : Res (option Paper.t) :=
  let i := info hit in
  let year := parseInt (DblpInfo.year i) in
  (* Apply year filter *)
  if outsideYears options year then inr None
  else
    let authors := extractAuthors i in
    (* Match conference using improved matching *)
    let venue := venueText i in
    matched <-- matchConference venue ;;
    (* Filter by requested conferences *)
    if notRequested options matched then inr None
    else
      (* Get conference website URL for reference *)
      confWebsiteUrl <-- match matched with
                         | Some (key, _) => getConferenceWebsiteUrl key year
                         | None => inr None
                         end ;;
      inr (Some (paperOf i authors year matched confWebsiteUrl)).

(** [for (const hit of hits) { ... }] with the array [papers] threaded
    through. *)
Fixpoint hitsLoop (options : SearchOptions.t) (hits : list DblpHit)
    (papers : list Paper.t) : Res (list Paper.t) :=
  match hits with
  | [] => inr papers
  | hit :: rest =>
      r <-- processHit options hit ;;
      match r with
      | Some p => hitsLoop options rest (papers ++ [p])
      | None => hitsLoop options rest papers
      end
  end.

Definition fetch (r : Request) : Eff Reply :=
  Run.emit (Fetch r) ;;; Run.ret (upstream r).

Definition console_error (e : Exn) : Eff unit :=
  Run.emit (ConsoleError e).

Definition the_request (options : SearchOptions.t) : Request :=
  let query := buildDblpQuery options in
  let limit := match truthy_num (SearchOptions.limit options) with
               | Some l => l
               | None => 50
               end in
  {| q := query;
     format := "json";
     h := Z_toString limit; (* max hits *)
     userAgent := "SecurityPaperMCP/1.0" |}.

Definition searchPapers (options : SearchOptions.t) : Eff (list Paper.t) :=
  let url := the_request options in
  Run.try_catch
    (response <- fetch url ;;
     match response with
     | NetworkFailure => Run.throw FetchRejected
     | NotOk status =>
         Run.throw (Error ("DBLP API error: " ++ Z_toString status)%string)
     | NotJson => Run.throw JsonRejected
     | Data hit =>
         let hits := hitsOf hit in
         let papers := [] in
         Run.lift (hitsLoop options hits papers)
     end)
    (fun error => console_error error ;;; Run.throw error).

Definition searchByConference (conferenceKey : string) (year : Z)
  : Eff (list Paper.t) :=
  let conf := getConferenceInfo conferenceKey in
  if falsy conf then
    Run.throw (Error ("Unknown conference: " ++ conferenceKey)%string)
  else
    searchPapers (conferenceOptions conferenceKey year).

End Program.

(** The loop of [getAvailableYears] from [y] on:
    [for (; y <= currentYear + 1; y++) years.push(y)]. *)
Equations? yearsLoop (currentYear y : Z) (years : list Z) : list Z
  by wf (Z.to_nat (currentYear + 2 - y)) lt :=
  yearsLoop currentYear y years with Z_le_dec y (currentYear + 1) => {
    | left _ => yearsLoop currentYear (y + 1) (years ++ [y]);
    | right _ => years }.
Proof. lia. Qed.

(** [currentYear] is [new Date().getFullYear()]. *)
Definition getAvailableYears (currentYear : Z) : list Z :=
  let years := [] in
  yearsLoop currentYear 2020 years.

(* ===================================================================== *)
(** ** The listing of the registry (paperSearch.js) *)
(* ===================================================================== *)

(** [xs.sort()] on an array of strings orders it by code units.  As that
    order is total and antisymmetric, the sorted array is determined by
    the elements; it is computed here by merge sort. *)
Module StringOrder <: Orders.TotalLeBool.
Definition t := string.
Definition leb := String.leb.
Definition leb_total : forall a1 a2, leb a1 a2 = true \/ leb a2 a1 = true :=
  String.leb_total.
End StringOrder.

Module StringSort := Mergesort.Sort StringOrder.

(** One item of [topTier] or [secondTier]. *)
Module Listing.
Record t := {
  key : string;
  name : string;
  shortName : string;
  years : list string
}.
End Listing.

(** [Object.entries(tier).map(([key, conf]) => ({ ... }))] *)
Definition listTier (o : obj ConferenceInfo) : list Listing.t :=
  map (fun e : string * ConferenceInfo =>
         let (key, conf) := e in
         {| Listing.key := key;
            Listing.name := name conf;
            Listing.shortName := shortName conf;
            Listing.years := StringSort.sort (keys (urls conf)) |})
      (entries o).

Record Listings := {
  topTier : list Listing.t;
  secondTier : list Listing.t
}.

Definition listAvailableConferences
    (top_tier_members second_tier_members : list (string * ConferenceInfo))
  : Listings :=
  let topTier := listTier (top_tier top_tier_members) in
  let secondTier := listTier (second_tier second_tier_members) in
  {| topTier := topTier; secondTier := secondTier |}.

(* ===================================================================== *)
(** ** The tool handlers (index.ts) *)
(* ===================================================================== *)

(** The options that the [search_papers] handler passes to
    [searchPapers]; [currentYear] is [new Date().getFullYear()]. *)
Definition search_papers_options (args : SearchOptions.t) (currentYear : Z)
  : SearchOptions.t :=
  {| SearchOptions.keyword := SearchOptions.keyword args;
     SearchOptions.author := SearchOptions.author args;
     SearchOptions.yearFrom :=
       Some (match truthy_num (SearchOptions.yearFrom args) with
             | Some y => y
             | None => 2020
             end);
     SearchOptions.yearTo :=
       Some (match truthy_num (SearchOptions.yearTo args) with
             | Some y => y
             | None => currentYear
             end);
     SearchOptions.conferences := SearchOptions.conferences args;
     SearchOptions.tier :=
       Some (match SearchOptions.tier args with
             | Some t => t
             | None => tier_all
             end);
     SearchOptions.limit :=
       Some (match truthy_num (SearchOptions.limit args) with
             | Some l => l
             | None => 50
             end) |}.

(** The options that the [get_stats] handler passes to [searchPapers]. *)
Definition get_stats_options (keyword : option string)
    (tier : option TierFilter) : SearchOptions.t :=
  {| SearchOptions.keyword := keyword;
     SearchOptions.author := None;
     SearchOptions.yearFrom := None;
     SearchOptions.yearTo := None;
     SearchOptions.conferences := None;
     SearchOptions.tier :=
       Some (match tier with
             | Some t => t
             | None => tier_all
             end);
     SearchOptions.limit := Some 200 |}.

(** A value held by [byYear] or [byConference]: a count, or the text that
    [+ 1] makes of a member inherited from [Object.prototype], that is
    the text of the member [name] followed by [ones] characters 1. *)
Inductive StatValue :=
| Count (n : Z)
| Appended (name : string) (ones : nat).

(** [(o[k] || 0) + 1] *)
Definition bumped (o : obj StatValue) (k : string) : StatValue :=
  match get o k with
  | Own (Count n) => Count ((if n =? 0 then 0 else n) + 1)
  | Own (Appended m i) => Appended m (S i)
  | Inherited m => Appended m 1
  | Undefined => Count (0 + 1)
  end.

(** [o[k] = v] on an object made by [{}] and changed by assignments of
    numbers and strings only: the name [__proto__] is the accessor of
    [Object.prototype], whose setter ignores such values; any other name
    becomes or stays an own property. *)
Definition assign (o : obj StatValue) (k : string) (v : StatValue)
  : obj StatValue :=
  if String.eqb k "__proto__" then o else set o k v.

(** [o[k] = (o[k] || 0) + 1] *)
Definition bump (o : obj StatValue) (k : string) : obj StatValue :=
  assign o k (bumped o k).

(** The property name that a value used as a key becomes. *)
Definition yearKey (p : Paper.t) : string := toString (Paper.year p).

Definition conferenceKey (p : Paper.t) : string :=
  match Paper.conference p with
  | Some c => c
  | None => "undefined"
  end.

(** Group by year, group by conference:
    [for (const paper of papers) { ... }] with the two objects threaded
    through. *)
Fixpoint statsLoop (papers : list Paper.t)
    (byYear byConference : obj StatValue)
  : obj StatValue * obj StatValue :=
  match papers with
  | [] => (byYear, byConference)
  | paper :: rest =>
      let byYear := bump byYear (yearKey paper) in
      let byConference := bump byConference (conferenceKey paper) in
      statsLoop rest byYear byConference
  end.

Definition groupPapers (papers : list Paper.t)
  : obj StatValue * obj StatValue :=
  let byYear := [] in
  let byConference := [] in
  statsLoop papers byYear byConference.

(* ===================================================================== *)
(** ** Notions of the specification *)
(* ===================================================================== *)

(** The query of section 4.3, in the words of the specification. *)
Module QuerySpec.
Section QuerySpec.

Variables top_tier_members second_tier_members : list (string * ConferenceInfo).

(** A keyword or author is present when it is a non-empty string. *)
Definition present (s : option string) : list string :=
  match s with
  | Some x => if String.eqb x "" then [] else [x]
  | None => []
  end.

(** The explicit list if non-empty, else every key of [byTier(tier)],
    the tier defaulting to all. *)
Definition effectiveConferences (options : SearchOptions.t) : list string :=
  match SearchOptions.conferences options with
  | Some (c :: cs) => c :: cs
  | _ =>
      keys (getConferencesByTier top_tier_members second_tier_members
              (match SearchOptions.tier options with
               | Some t => t
               | None => tier_all
               end))
  end.

(** The identifiers of the keys that resolve, in order. *)
Definition resolve (cs : list string) : list string :=
  flat_map
    (fun c =>
       match getConferenceInfo top_tier_members second_tier_members c with
       | Own conf => [dblpKey conf]
       | _ => []
       end) cs.

(** One disjunction of per-venue terms, or nothing. *)
Definition venueClause (ids : list string) : list string :=
  match ids with
  | [] => []
  | _ => [join "|" (map (fun id => ("venue:" ++ id ++ ":")%string) ids)]
  end.

Definition query (options : SearchOptions.t) : string :=
  join " "
    (present (SearchOptions.keyword options)
     ++ map (fun a => ("author:" ++ a)%string)
            (present (SearchOptions.author options))
     ++ venueClause (resolve (effectiveConferences options))).

End QuerySpec.
End QuerySpec.

(** No key is the name of a member of [Object.prototype]. *)
Definition plainKeys (o : obj ConferenceInfo) : bool :=
  forallb (fun kv => negb (existsb (String.eqb (fst kv)) prototype_names)) o.

(** Every entry has a non-empty key, short name and venue identifier. *)
Definition nonEmptyNames (o : obj ConferenceInfo) : bool :=
  forallb (fun kv => truthy_string (fst kv)
                     && truthy_string (shortName (snd kv))
                     && truthy_string (dblpKey (snd kv))) o.

(** The auxiliary names that the matcher tries for a key: the array
    under the key in [DBLP_VENUE_MAPPINGS], none without one. *)
Definition auxiliaryNames (key : string) : list string :=
  match get DBLP_VENUE_MAPPINGS key with
  | Own ms => ms
  | _ => []
  end.

(** One of the three rules of the matcher applies to the entry. *)
Definition ruleApplies (venueLower key : string) (conf : ConferenceInfo)
  : bool :=
  includes venueLower (dblpKey conf)
  || existsb (includes venueLower) (auxiliaryNames key)
  || includes venueLower key
  || includes venueLower (toLowerCase (shortName conf)).

(** The request with its list of conferences replaced. *)
Definition with_conferences (cs : option (list string)) (o : SearchOptions.t)
  : SearchOptions.t :=
  {| SearchOptions.keyword := SearchOptions.keyword o;
     SearchOptions.author := SearchOptions.author o;
     SearchOptions.yearFrom := SearchOptions.yearFrom o;
     SearchOptions.yearTo := SearchOptions.yearTo o;
     SearchOptions.conferences := cs;
     SearchOptions.tier := SearchOptions.tier o;
     SearchOptions.limit := SearchOptions.limit o |}.

(** Equality of years, NaN being the one year that is no integer. *)
Definition sameYear (a b : JsNum) : bool :=
  match a, b with
  | NaN, NaN => true
  | Int x, Int y => x =? y
  | _, _ => false
  end.

(** How often a property name occurs in a list of names. *)
Definition occurrences (k : string) (ks : list string) : Z :=
  Z.of_nat (length (filter (String.eqb k) ks)).

(** Text over the ASCII alphabet.  On such text [toLowerCase] and
    [toUpperCase] of the embedding are those of JavaScript, which maps
    letters outside ASCII as well (and some of them to ASCII letters). *)
Fixpoint isAscii (s : string) : bool :=
  match s with
  | EmptyString => true
  | String c r => (N_of_ascii c <? 128)%N && isAscii r
  end.

(** The integers [lo, lo + 1, ...], [n] of them. *)
Definition range_from (lo : Z) (n : nat) : list Z :=
  map (fun i => lo + Z.of_nat i) (seq 0 n).

(** The request with its limit replaced. *)
Definition with_limit (l : option Z) (o : SearchOptions.t) : SearchOptions.t :=
  {| SearchOptions.keyword := SearchOptions.keyword o;
     SearchOptions.author := SearchOptions.author o;
     SearchOptions.yearFrom := SearchOptions.yearFrom o;
     SearchOptions.yearTo := SearchOptions.yearTo o;
     SearchOptions.conferences := SearchOptions.conferences o;
     SearchOptions.tier := SearchOptions.tier o;
     SearchOptions.limit := l |}.

(* ===================================================================== *)
(** ** A registry instance *)
(* ===================================================================== *)

(** The seven conferences of the README under the keys that the tool
    schema (index.ts) and [DBLP_VENUE_MAPPINGS] use.  The venue
    identifiers and URLs of the real [conferences.json] are not among the
    sources; the ones below are the DBLP stream names and serve the
    concrete examples only.  Every general statement below is about an
    arbitrary registry. *)
Module Sample.

Definition conf (n s : string) (t : Tier) (u : list (string * string))
    (k : string) : ConferenceInfo :=
  {| name := n; shortName := s; tier := t; urls := of_members u;
     dblpKey := k |}.

Definition top_tier_members : list (string * ConferenceInfo) :=
  [ ("sp", conf "IEEE Symposium on Security and Privacy" "S&P" top
             [("2024", "https://sp2024.ieee-security.org/")] "sp");
    ("usenix", conf "USENIX Security Symposium" "USENIX Security" top
             [("2024", "https://www.usenix.org/conference/usenixsecurity24")]
             "uss");
    ("ccs", conf "ACM Conference on Computer and Communications Security"
             "CCS" top [("2024", "https://www.sigsac.org/ccs/CCS2024/")]
             "ccs");
    ("ndss", conf "Network and Distributed System Security Symposium"
             "NDSS" top
             [("2024", "https://www.ndss-symposium.org/ndss2024/")] "ndss") ].

Definition second_tier_members : list (string * ConferenceInfo) :=
  [ ("acsac", conf "Annual Computer Security Applications Conference"
             "ACSAC" second [("2024", "https://www.acsac.org/2024/")]
             "acsac");
    ("raid", conf "Research in Attacks, Intrusions and Defenses" "RAID"
             second [("2024", "https://raid2024.github.io/")] "raid");
    ("esorics", conf "European Symposium on Research in Computer Security"
             "ESORICS" second [("2024", "https://esorics2024.org/")]
             "esorics") ].

Definition hit (t y : string) (v : option string) : DblpHit :=
  {| info := {| DblpInfo.title := t; DblpInfo.authors := None;
                DblpInfo.year := y; DblpInfo.venue := v;
                DblpInfo.url := None; DblpInfo.doi := None;
                DblpInfo.ee := None |} |}.

Definition options (cs : option (list string)) (yf yt : option Z)
    (l : option Z) : SearchOptions.t :=
  {| SearchOptions.keyword := None; SearchOptions.author := None;
     SearchOptions.yearFrom := yf; SearchOptions.yearTo := yt;
     SearchOptions.conferences := cs; SearchOptions.tier := None;
     SearchOptions.limit := l |}.

(** An upstream that answers every request with the same hits. *)
Definition always (hits : list DblpHit) : Request -> Reply :=
  fun _ => Data (Some hits).

Definition matchConference := matchConference top_tier_members second_tier_members.
Definition getConferenceInfo := getConferenceInfo top_tier_members second_tier_members.
Definition buildDblpQuery := buildDblpQuery top_tier_members second_tier_members.
Definition processHit := processHit top_tier_members second_tier_members.
Definition searchPapers := searchPapers top_tier_members second_tier_members.
Definition searchByConference :=
  searchByConference top_tier_members second_tier_members.

End Sample.

(** Hits and Papers of the concrete examples. *)
Module Examples.

Definition sp_2023 : DblpHit :=
  Sample.hit "A" "2023" (Some "IEEE Symposium on Security and Privacy (SP)").
Definition sp_2019 : DblpHit :=
  Sample.hit "B" "2019" (Some "IEEE Symposium on Security and Privacy (SP)").
Definition ccs_2023 : DblpHit :=
  Sample.hit "C" "2023" (Some "ACM CCS 2023").
Definition workshop_2023 : DblpHit :=
  Sample.hit "D" "2023" (Some "Proceedings of WORKSHOP-XYZ 2023").
Definition workshop_undated : DblpHit :=
  Sample.hit "E" "n/a" (Some "Proceedings of WORKSHOP-XYZ 2023").

Definition paper (t : string) (y : JsNum) (c f : string) (r : Tier)
    (u : option string) : Paper.t :=
  {| Paper.title := t; Paper.authors := []; Paper.year := y;
     Paper.conference := Some c; Paper.conferenceFull := Some f;
     Paper.tier := r; Paper.url := None; Paper.doi := None;
     Paper.conferenceUrl := u |}.

Definition sp_paper : Paper.t :=
  paper "A" (Int 2023) "S&P" "IEEE Symposium on Security and Privacy" top None.
Definition workshop_paper : Paper.t :=
  paper "D" (Int 2023) "Proceedings of WORKSHOP-XYZ 2023"
    "Proceedings of WORKSHOP-XYZ 2023" second None.
Definition undated_paper : Paper.t :=
  paper "E" NaN "Proceedings of WORKSHOP-XYZ 2023"
    "Proceedings of WORKSHOP-XYZ 2023" second None.

End Examples.

Import Examples.

(* ===================================================================== *)
(** ** Facts about the primitives *)
(* ===================================================================== *)

Lemma lower_upper_ascii (c : ascii) :
  lower_ascii (upper_ascii c) = lower_ascii c.
Proof. destruct c as [[] [] [] [] [] [] [] []]; reflexivity. Qed.

Lemma lower_lower_ascii (c : ascii) :
  lower_ascii (lower_ascii c) = lower_ascii c.
Proof. destruct c as [[] [] [] [] [] [] [] []]; reflexivity. Qed.

Lemma toLowerCase_toUpperCase (s : string) :
  toLowerCase (toUpperCase s) = toLowerCase s.
Proof.
  induction s as [|c r IH]; simpl; [reflexivity|].
  now rewrite lower_upper_ascii, IH.
Qed.

Lemma toLowerCase_idempotent (s : string) :
  toLowerCase (toLowerCase s) = toLowerCase s.
Proof.
  induction s as [|c r IH]; simpl; [reflexivity|].
  now rewrite lower_lower_ascii, IH.
Qed.



Lemma own_get_In {V} (o : obj V) (k : string) (v : V) :
  In (k, v) o -> exists v', own_get o k = Some v'.
Proof.
  induction o as [|[k' v'] r IH]; simpl; [tauto|].
  intros [H | H].
  - injection H as -> ->. rewrite String.eqb_refl. now exists v.
  - destruct (String.eqb k k'); [now exists v' | auto].
Qed.

Lemma own_get_Some_In {V} (o : obj V) (k : string) (v : V) :
  own_get o k = Some v -> In (k, v) o.
Proof.
  induction o as [|[k' v'] r IH]; simpl; [discriminate|].
  destruct (String.eqb_spec k k') as [->|n].
  - intros [= ->]. now left.
  - intros H. right. auto.
Qed.

(* ===================================================================== *)
(** ** Registry access *)
(* ===================================================================== *)

Section RegistryFacts.

Variables top_tier_members second_tier_members : list (string * ConferenceInfo).

Let all := getAllConferences top_tier_members second_tier_members.
Let info_of := getConferenceInfo top_tier_members second_tier_members.

(** The lookup does not see the case of the key. *)
Lemma getConferenceInfo_case_insensitive (k : string) :
  info_of (toUpperCase k) = info_of k.
Proof.
  unfold info_of, getConferenceInfo.
  now rewrite toLowerCase_toUpperCase.
Qed.

(** A lower-case name is inherited only if it is [constructor] or
    [__proto__]. *)
Lemma inherited_lower_case (k : string) :
  existsb (String.eqb (toLowerCase k)) prototype_names = true ->
  toLowerCase k = "constructor" \/ toLowerCase k = "__proto__".
Proof.
  intros H. apply existsb_exists in H. destruct H as [n [Hn He]].
  apply String.eqb_eq in He.
  assert (Hl : toLowerCase n = n)
    by (rewrite <- He; apply toLowerCase_idempotent).
  rewrite He. clear He k. unfold prototype_names in Hn. simpl in Hn.
  repeat (destruct Hn as [Hn | Hn];
          [subst n; first [now left | now right | discriminate Hl]|]).
  contradiction.
Qed.

(** A key that is no own property and, in lower case, neither
    [constructor] nor [__proto__], yields undefined. *)
Lemma getConferenceInfo_unknown (k : string) :
  own_get all (toLowerCase k) = None ->
  toLowerCase k <> "constructor" ->
  toLowerCase k <> "__proto__" ->
  info_of k = Undefined.
Proof.
  intros Hown Hc Hp. unfold info_of, getConferenceInfo, get.
  fold all. rewrite Hown.
  destruct (existsb _ prototype_names) eqn:E; [|reflexivity].
  apply inherited_lower_case in E. tauto.
Qed.

(** A key that is an own property in lower case yields its entry. *)
Lemma getConferenceInfo_own (k : string) (conf : ConferenceInfo) :
  own_get all (toLowerCase k) = Some conf -> info_of k = Own conf.
Proof.
  intros H. unfold info_of, getConferenceInfo, get. fold all.
  now rewrite H.
Qed.

(** The lookup is total: it yields a value for every key and never
    throws; what it yields is decided by the own properties and the
    inherited names alone. *)
Lemma getConferenceInfo_cases (k : string) :
  (exists conf, info_of k = Own conf /\ In (toLowerCase k, conf) all)
  \/ (info_of k = Inherited (toLowerCase k)
      /\ (toLowerCase k = "constructor" \/ toLowerCase k = "__proto__"))
  \/ info_of k = Undefined.
Proof.
  unfold info_of, getConferenceInfo, get. fold all.
  destruct (own_get all (toLowerCase k)) as [conf|] eqn:E.
  - left. exists conf. split; [reflexivity|]. now apply own_get_Some_In.
  - destruct (existsb _ prototype_names) eqn:P.
    + right; left. split; [reflexivity|]. now apply inherited_lower_case.
    + now right; right.
Qed.

(** C7 (the code at the key [constructor]).  The claim: an unknown key
    yields an absent result.  When no conference is registered under
    [constructor], [getConferenceInfo("constructor")] reads the member
    that every object inherits from [Object.prototype]: the result is
    neither absent nor a registry entry. *)
Theorem C7_getConferenceInfo_constructor_not_absent :
  own_get all "constructor" = None ->
  info_of "constructor" = Inherited "constructor"
  /\ falsy (info_of "constructor") = false
  /\ info_of (toUpperCase "constructor") = info_of "constructor".
Proof.
  intros H.
  assert (E : info_of "constructor" = Inherited "constructor").
  { unfold info_of, getConferenceInfo, get. fold all.
    change (toLowerCase "constructor") with "constructor".
    now rewrite H. }
  rewrite getConferenceInfo_case_insensitive, E. auto.
Qed.

End RegistryFacts.

Lemma C7_witness :
  own_get (getAllConferences Sample.top_tier_members
             Sample.second_tier_members) "constructor" = None
  /\ Sample.getConferenceInfo "constructor" = Inherited "constructor".
Proof.
  split; [reflexivity|].
  apply (C7_getConferenceInfo_constructor_not_absent
           Sample.top_tier_members Sample.second_tier_members).
  reflexivity.
Defined.

(* ===================================================================== *)
(** ** Available years *)
(* ===================================================================== *)

Lemma range_from_S (lo : Z) (n : nat) :
  range_from lo (S n) = lo :: range_from (lo + 1) n.
Proof.
  unfold range_from. simpl. rewrite Z.add_0_r. f_equal.
  rewrite <- seq_shift, map_map. apply map_ext. intros i. lia.
Qed.

Lemma yearsLoop_range (currentYear y : Z) (years : list Z) :
  yearsLoop currentYear y years
  = years ++ range_from y (Z.to_nat (currentYear + 2 - y)).
Proof.
  funelim (yearsLoop currentYear y years).
  - rewrite H. rewrite <- app_assoc. f_equal.
    replace (Z.to_nat (currentYear + 2 - y))
      with (S (Z.to_nat (currentYear + 2 - (y + 1)))) by lia.
    now rewrite range_from_S.
  - replace (Z.to_nat (currentYear + 2 - y)) with 0%nat by lia.
    now rewrite app_nil_r.
Qed.

Lemma In_range_from (lo : Z) (n : nat) (x : Z) :
  In x (range_from lo n) <-> lo <= x < lo + Z.of_nat n.
Proof.
  unfold range_from. rewrite in_map_iff. split.
  - intros [i [<- Hi]]. apply in_seq in Hi. lia.
  - intros H. exists (Z.to_nat (x - lo)). split; [lia|].
    apply in_seq. lia.
Qed.

(** C8.  [getAvailableYears()] is the list 2020, 2021, ..., currentYear + 1:
    its i-th element is 2020 + i, it has currentYear - 2018 elements (none
    when that is negative), an integer is in it exactly when it lies
    between 2020 and currentYear + 1, and in year 2025 it is 2020..2026. *)
Theorem C8_getAvailableYears_range (currentYear : Z) :
  getAvailableYears currentYear
  = range_from 2020 (Z.to_nat (currentYear - 2018))
  /\ (forall i, (i < Z.to_nat (currentYear - 2018))%nat ->
        nth_error (getAvailableYears currentYear) i
        = Some (2020 + Z.of_nat i))
  /\ (forall y, In y (getAvailableYears currentYear)
                <-> 2020 <= y <= currentYear + 1)
  /\ getAvailableYears 2025 = [2020; 2021; 2022; 2023; 2024; 2025; 2026].
Proof.
  assert (E : getAvailableYears currentYear
              = range_from 2020 (Z.to_nat (currentYear - 2018))).
  { unfold getAvailableYears. rewrite yearsLoop_range. simpl.
    f_equal. lia. }
  split; [exact E|]. split; [|split].
  - intros i Hi. rewrite E. unfold range_from.
    rewrite nth_error_map, nth_error_seq.
    destruct (Nat.ltb_spec i (Z.to_nat (currentYear - 2018))); [|lia].
    reflexivity.
  - intros y. rewrite E, In_range_from. lia.
  - reflexivity.
Qed.

(* ===================================================================== *)
(** ** Query builder *)
(* ===================================================================== *)

Section QueryBuilder.

Variables top_tier_members second_tier_members : list (string * ConferenceInfo).

Let all := getAllConferences top_tier_members second_tier_members.
Let build := buildDblpQuery top_tier_members second_tier_members.
Let target := targetConferences top_tier_members second_tier_members.
Let key_of := dblpKey_of top_tier_members second_tier_members.
Let effective :=
  QuerySpec.effectiveConferences top_tier_members second_tier_members.
Let resolve := QuerySpec.resolve top_tier_members second_tier_members.

Lemma truthy_str_present (s : option string) :
  QuerySpec.present s
  = match truthy_str s with Some x => [x] | None => [] end.
Proof.
  destruct s as [x|]; simpl; [|reflexivity].
  unfold truthy_string. now destruct (String.eqb x "").
Qed.

Lemma targetConferences_effective (options : SearchOptions.t) :
  target options = effective options.
Proof.
  unfold target, effective, targetConferences,
    QuerySpec.effectiveConferences, has_length.
  unfold requested.
  destruct (SearchOptions.conferences options) as [[|c cs]|]; reflexivity.
Qed.

(** Keys that do not resolve contribute nothing to the venue queries:
    neither unknown keys nor names inherited from [Object.prototype]. *)
Lemma filter_Boolean_unresolved (cs : list string) :
  (forall c, In c cs -> key_of c = None) ->
  filter_Boolean (map key_of cs) = [].
Proof.
  induction cs as [|c cs IH]; simpl; [reflexivity|].
  intros H. rewrite (H c) by now left. simpl. apply IH.
  intros c' Hc. apply H. now right.
Qed.

Hypothesis identifiers_non_empty : nonEmptyIdentifiers all = true.

Lemma filter_Boolean_resolve (cs : list string) :
  filter_Boolean (map key_of cs) = resolve cs.
Proof.
  induction cs as [|c cs IH]; simpl; [reflexivity|].
  rewrite IH. unfold key_of, dblpKey_of.
  destruct (getConferenceInfo_cases top_tier_members second_tier_members c)
    as [[conf [E Hin]] | [[E _] | E]]; rewrite E; simpl; try reflexivity.
  unfold nonEmptyIdentifiers in identifiers_non_empty.
  rewrite forallb_forall in identifiers_non_empty.
  apply identifiers_non_empty in Hin. simpl in Hin. now rewrite Hin.
Qed.

(** C4.  In a registry whose entries all have a non-empty venue
    identifier, the query is the space-separated concatenation of the
    keyword if present, ['author:'] and the author if present, and the
    venue clause of the effective conference set: the explicit list if
    non-empty, else the keys of [byTier(tier)]; keys are resolved
    through [getConferenceInfo], those that do not resolve are dropped,
    and the identifiers left form one ['|']-joined disjunction of
    ['venue:<id>:'] terms.  With no identifier left there is no venue
    clause, and the function returns a string in every case. *)
Theorem C4_buildDblpQuery_spec (options : SearchOptions.t) :
  build options
  = QuerySpec.query top_tier_members second_tier_members options
  /\ (has_length (SearchOptions.conferences options) = false ->
      effective options
      = keys (getConferencesByTier top_tier_members second_tier_members
                (match SearchOptions.tier options with
                 | Some t => t
                 | None => tier_all
                 end)))
  /\ (forall c cs, SearchOptions.conferences options = Some (c :: cs) ->
      effective options = c :: cs)
  /\ (resolve (effective options) = [] ->
      build options
      = join " "
          (QuerySpec.present (SearchOptions.keyword options)
           ++ map (fun a => ("author:" ++ a)%string)
                  (QuerySpec.present (SearchOptions.author options)))).
Proof.
  assert (E : build options
              = QuerySpec.query top_tier_members second_tier_members options).
  { unfold build, buildDblpQuery, QuerySpec.query.
    fold target key_of.
    rewrite filter_Boolean_resolve, targetConferences_effective.
    fold effective resolve.
    rewrite !truthy_str_present.
    destruct (truthy_str (SearchOptions.keyword options)) as [kw|];
      destruct (truthy_str (SearchOptions.author options)) as [au|];
      destruct (resolve (effective options)) as [|i ids];
      reflexivity. }
  split; [exact E|]. split; [|split].
  - unfold effective, QuerySpec.effectiveConferences, has_length.
    destruct (SearchOptions.conferences options) as [[|c cs]|];
      [reflexivity | discriminate | reflexivity].
  - intros c cs H. unfold effective, QuerySpec.effectiveConferences.
    now rewrite H.
  - intros H. rewrite E. unfold QuerySpec.query. fold effective resolve.
    rewrite H. simpl. now rewrite app_nil_r.
Qed.

End QueryBuilder.


Lemma C4_witness :
  nonEmptyIdentifiers
    (getAllConferences Sample.top_tier_members Sample.second_tier_members)
  = true
  /\ Sample.buildDblpQuery
       {| SearchOptions.keyword := Some "fuzzing";
          SearchOptions.author := Some "Jane Doe";
          SearchOptions.yearFrom := None; SearchOptions.yearTo := None;
          SearchOptions.conferences := Some ["CCS"; "nope"; "raid"];
          SearchOptions.tier := Some tier_top;
          SearchOptions.limit := None |}
     = "fuzzing author:Jane Doe venue:ccs:|venue:raid:".
Proof.
  split; [reflexivity|].
  refine (eq_trans
            (proj1 (C4_buildDblpQuery_spec Sample.top_tier_members
                      Sample.second_tier_members _ _)) _);
    reflexivity.
Defined.

(* ===================================================================== *)
(** ** Venue matcher *)
(* ===================================================================== *)

(** An entry whose identifier occurs in the text is returned at once: the
    identifier is the first rule of the loop body. *)
Lemma matchEntry_dblpKey (venueLower key : string) (conf : ConferenceInfo) :
  includes venueLower (dblpKey conf) = true ->
  matchEntry venueLower key conf = inr true.
Proof. intros H. unfold matchEntry. now rewrite H. Qed.

(** When the auxiliary names of the key can be read, the body fires
    exactly when one of the three rules applies. *)
Lemma matchEntry_rules (venueLower key : string) (conf : ConferenceInfo)
    (mappings : list string) :
  (get DBLP_VENUE_MAPPINGS key = Own mappings
   \/ (get DBLP_VENUE_MAPPINGS key = Undefined /\ mappings = [])) ->
  matchEntry venueLower key conf
  = inr (includes venueLower (dblpKey conf)
         || existsb (includes venueLower) mappings
         || (includes venueLower key
             || includes venueLower (toLowerCase (shortName conf)))).
Proof.
  intros H. unfold matchEntry.
  destruct (includes venueLower (dblpKey conf)); [reflexivity|].
  destruct H as [-> | [-> ->]]; simpl; [|reflexivity].
  destruct (existsb (includes venueLower) mappings); reflexivity.
Qed.

(** The loop returns the first entry whose body fires, when the bodies of
    the entries before it ran to their end without firing. *)
Lemma matchLoop_first (venueLower : string)
    (pre post : list (string * ConferenceInfo))
    (key : string) (conf : ConferenceInfo) :
  (forall k c, In (k, c) pre -> matchEntry venueLower k c = inr false) ->
  matchEntry venueLower key conf = inr true ->
  matchLoop venueLower (pre ++ (key, conf) :: post) = inr (Some (key, conf)).
Proof.
  intros Hpre Hhit. induction pre as [|[k c] pre IH]; simpl.
  - now rewrite Hhit.
  - rewrite (Hpre k c) by now left. simpl. apply IH.
    intros k' c' H. apply Hpre. now right.
Qed.

(** What the loop returns is an entry of the list it scans, and its body
    fired on it. *)
Lemma matchLoop_Some (venueLower : string) (es : list (string * ConferenceInfo))
    (key : string) (conf : ConferenceInfo) :
  matchLoop venueLower es = inr (Some (key, conf)) ->
  In (key, conf) es /\ matchEntry venueLower key conf = inr true.
Proof.
  induction es as [|[k c] es IH]; simpl; [discriminate|].
  destruct (matchEntry venueLower k c) as [e|[|]] eqn:E; simpl.
  - discriminate.
  - intros [= -> ->]. split; [now left | exact E].
  - intros H. destruct (IH H) as [Hin Hm]. split; [now right | exact Hm].
Qed.

(** The loop reports no match only when no body fired. *)
Lemma matchLoop_None (venueLower : string) (es : list (string * ConferenceInfo)) :
  matchLoop venueLower es = inr None ->
  forall k c, In (k, c) es -> matchEntry venueLower k c = inr false.
Proof.
  induction es as [|[k c] es IH]; simpl; [tauto|].
  destruct (matchEntry venueLower k c) as [e|[|]] eqn:E; simpl;
    try discriminate.
  intros H k' c' [[= <- <-] | Hin]; [exact E | now apply IH].
Qed.

(** The only exception of the matcher is a TypeError. *)
Lemma matchLoop_throws (venueLower : string) (es : list (string * ConferenceInfo))
    (e : Exn) :
  matchLoop venueLower es = inl e -> exists m, e = TypeError m.
Proof.
  induction es as [|[k c] es IH]; simpl; [discriminate|].
  destruct (matchEntry venueLower k c) as [e'|[|]] eqn:E; simpl.
  - intros [= <-]. unfold matchEntry in E.
    destruct (includes venueLower (dblpKey c)); [discriminate|].
    destruct (get DBLP_VENUE_MAPPINGS k) as [ms|n|]; simpl in E.
    + destruct (existsb _ ms); discriminate.
    + injection E as <-. eauto.
    + discriminate.
  - discriminate.
  - exact IH.
Qed.

(** C1 (the claim as stated fails).  In the registry instance the text
    below contains the identifier [ndss] of NDSS and the key [usenix] of
    USENIX Security, which comes earlier in registry order: the matcher
    returns USENIX Security, not the conference whose identifier the text
    contains. *)
Lemma C1_counterexample :
  let venue := "USENIX Workshop co-located with NDSS" in
  exists key conf,
    In (key, conf)
       (entries (getAllConferences Sample.top_tier_members
                   Sample.second_tier_members))
    /\ includes (toLowerCase venue) (toLowerCase (dblpKey conf)) = true
    /\ Sample.matchConference venue <> inr (Some (key, conf))
    /\ exists conf', Sample.matchConference venue = inr (Some ("usenix", conf'))
                     /\ includes (toLowerCase venue) "usenix" = true.
Proof.
  exists "ndss".
  eexists. split; [|split; [|split]].
  - right; right; right; left. reflexivity.
  - reflexivity.
  - vm_compute. discriminate.
  - eexists. split; reflexivity.
Qed.

(* ===================================================================== *)
(** ** Search orchestrator *)
(* ===================================================================== *)

Section HitLoop.

Variables top_tier_members second_tier_members : list (string * ConferenceInfo).

Let matcher := matchConference top_tier_members second_tier_members.
Let websiteUrl := getConferenceWebsiteUrl top_tier_members second_tier_members.
Let process := processHit top_tier_members second_tier_members.
Let loop := hitsLoop top_tier_members second_tier_members.

(** *** One hit *)

(** A hit that yields a paper passed both filters, and the paper is built
    from the hit, the parsed year and the matcher's answer. *)
Lemma processHit_Some (options : SearchOptions.t) (hit : DblpHit) (p : Paper.t) :
  process options hit = inr (Some p) ->
  outsideYears options (parseInt (DblpInfo.year (info hit))) = false
  /\ exists matched u,
       matcher (venueText (info hit)) = inr matched
       /\ notRequested options matched = false
       /\ p = paperOf (info hit) (extractAuthors (info hit))
                (parseInt (DblpInfo.year (info hit))) matched u.
Proof.
  unfold process, processHit. fold matcher websiteUrl.
  destruct (outsideYears options _); [discriminate|].
  destruct (matcher _) as [e|matched]; simpl; [discriminate|].
  destruct (notRequested options matched) eqn:N; [discriminate|].
  intros H. split; [reflexivity|]. exists matched.
  destruct matched as [[key conf]|].
  - destruct (websiteUrl key _) as [e|u]; simpl in H; [discriminate|].
    injection H as <-. now exists u.
  - simpl in H. injection H as <-. now exists None.
Qed.

(** A hit inside the year bounds, with a venue that matches nothing,
    always yields a paper. *)
Lemma processHit_unmatched (options : SearchOptions.t) (hit : DblpHit) :
  outsideYears options (parseInt (DblpInfo.year (info hit))) = false ->
  matcher (venueText (info hit)) = inr None ->
  process options hit
  = inr (Some (paperOf (info hit) (extractAuthors (info hit))
                 (parseInt (DblpInfo.year (info hit))) None None)).
Proof.
  intros Hy Hm. unfold process, processHit. fold matcher.
  rewrite Hy, Hm. simpl. unfold notRequested.
  now rewrite andb_false_r.
Qed.

(** A hit matched to a conference outside a non-empty list is skipped. *)
Lemma processHit_not_requested (options : SearchOptions.t) (hit : DblpHit)
    (key : string) (conf : ConferenceInfo) :
  has_length (SearchOptions.conferences options) = true ->
  matcher (venueText (info hit)) = inr (Some (key, conf)) ->
  array_includes (requested options) key = false ->
  process options hit = inr None.
Proof.
  intros Hl Hm Hk. unfold process, processHit. fold matcher.
  destruct (outsideYears options _); [reflexivity|].
  rewrite Hm. simpl. unfold notRequested. now rewrite Hl, Hk.
Qed.

(** The only exception of a turn of the loop is a TypeError. *)
Lemma processHit_throws (options : SearchOptions.t) (hit : DblpHit) (e : Exn) :
  process options hit = inl e -> exists m, e = TypeError m.
Proof.
  unfold process, processHit. fold matcher websiteUrl.
  destruct (outsideYears options _); [discriminate|].
  destruct (matcher _) as [e'|matched] eqn:M; simpl.
  - intros [= <-]. unfold matcher, matchConference in M.
    now apply matchLoop_throws in M.
  - destruct (notRequested options matched); [discriminate|].
    destruct matched as [[key conf]|]; simpl; [|discriminate].
    destruct (websiteUrl key _) as [e'|u] eqn:U; simpl; [|discriminate].
    intros [= <-]. unfold websiteUrl, getConferenceWebsiteUrl in U.
    destruct (getConferenceInfo _ _ key); try discriminate.
    injection U as <-. eauto.
Qed.

(** The limit plays no part in a turn of the loop. *)
Lemma processHit_with_limit (l : option Z) (options : SearchOptions.t)
    (hit : DblpHit) :
  process (with_limit l options) hit = process options hit.
Proof. destruct options; reflexivity. Qed.

(** *** The loop over the hits *)




(** Every paper of the result was in the accumulator or was built from
    one of the hits. *)
Lemma hitsLoop_In (options : SearchOptions.t) (hits : list DblpHit)
    (acc ps : list Paper.t) :
  loop options hits acc = inr ps ->
  forall p, In p ps ->
    In p acc \/ exists hit, In hit hits /\ process options hit = inr (Some p).
Proof.
  revert acc. induction hits as [|h hits IH]; intros acc; simpl.
  - intros [= <-] p Hp. now left.
  - fold process. destruct (process options h) as [e|[q|]] eqn:E; simpl;
      [discriminate | |].
    + intros H p Hp. destruct (IH _ H p Hp) as [Ha | [hit [Hin Hh]]].
      * apply in_app_or in Ha. destruct Ha as [Ha | [<- | []]].
        -- now left.
        -- right. exists h. split; [now left | exact E].
      * right. exists hit. split; [now right | exact Hh].
    + intros H p Hp. destruct (IH _ H p Hp) as [Ha | [hit [Hin Hh]]].
      * now left.
      * right. exists hit. split; [now right | exact Hh].
Qed.


Lemma hitsLoop_throws (options : SearchOptions.t) (hits : list DblpHit)
    (acc : list Paper.t) (e : Exn) :
  loop options hits acc = inl e -> exists m, e = TypeError m.
Proof.
  revert acc. induction hits as [|h hits IH]; intros acc; simpl;
    [discriminate|].
  fold process. destruct (process options h) as [e'|[q|]] eqn:E; simpl;
    [| apply IH | apply IH].
  intros [= <-]. now apply processHit_throws in E.
Qed.

Lemma hitsLoop_with_limit (l : option Z) (options : SearchOptions.t)
    (hits : list DblpHit) (acc : list Paper.t) :
  loop (with_limit l options) hits acc = loop options hits acc.
Proof.
  revert acc. induction hits as [|h hits IH]; intros acc; simpl;
    [reflexivity|].
  fold process. rewrite processHit_with_limit.
  destruct (process options h) as [e|[q|]]; simpl; auto.
Qed.

(** *** The allow-list *)


(** *** The fields of a Paper *)

(** C6.  A Paper built from a hit whose venue matches no conference has
    the raw venue of the hit as [conference] and as [conferenceFull] and
    has tier [second]; a Paper built from a matched hit has the tier of
    the matched entry and, the names of a registry entry being non-empty,
    its short name and its name. *)
Theorem C6_paper_fields (options : SearchOptions.t) (hit : DblpHit)
    (p : Paper.t) :
  process options hit = inr (Some p) ->
  match matcher (venueText (info hit)) with
  | inr None =>
      Paper.conference p = DblpInfo.venue (info hit)
      /\ Paper.conferenceFull p = DblpInfo.venue (info hit)
      /\ Paper.tier p = second
  | inr (Some (_, conf)) =>
      Paper.tier p = tier conf
      /\ (shortName conf <> "" -> Paper.conference p = Some (shortName conf))
      /\ (name conf <> "" -> Paper.conferenceFull p = Some (name conf))
  | inl _ => False
  end.
Proof.
  intros H. apply processHit_Some in H.
  destruct H as [_ [matched [u [Hm [_ ->]]]]]. rewrite Hm.
  destruct matched as [[key conf]|]; simpl.
  - split; [reflexivity|]. unfold truthy_string.
    split; intros Hn.
    + destruct (String.eqb_spec (shortName conf) ""); [contradiction|].
      reflexivity.
    + destruct (String.eqb_spec (name conf) ""); [contradiction|].
      reflexivity.
  - auto.
Qed.

End HitLoop.

Section Search.

Variables top_tier_members second_tier_members : list (string * ConferenceInfo).
Variable upstream : Request -> Reply.

Let all := getAllConferences top_tier_members second_tier_members.
Let info_of := getConferenceInfo top_tier_members second_tier_members.
Let matcher := matchConference top_tier_members second_tier_members.
Let build := buildDblpQuery top_tier_members second_tier_members.
Let process := processHit top_tier_members second_tier_members.
Let loop := hitsLoop top_tier_members second_tier_members.
Let request := the_request top_tier_members second_tier_members.
Let search := searchPapers top_tier_members second_tier_members upstream.
Let searchBy := searchByConference top_tier_members second_tier_members upstream.

(** *** The whole search *)

(** Every search sends exactly one request, first of all; the only other
    event is the report of the exception it ends with. *)
Lemma searchPapers_events (options : SearchOptions.t) :
  Run.events (search options) = [Fetch (request options)]
  \/ exists e, Run.events (search options)
               = [Fetch (request options); ConsoleError e]
               /\ Run.outcome (search options) = inl e.
Proof.
  unfold search, searchPapers, fetch. fold request.
  unfold Run.try_catch, Run.bind, Run.emit, Run.ret, Run.throw, Run.lift,
    console_error. simpl.
  destruct (upstream (request options)) as [| status | | hit]; simpl;
    try (right; eexists; split; reflexivity).
  fold loop. destruct (loop options _ []) as [e|ps]; simpl;
    [right; eexists; split; reflexivity | now left].
Qed.

(** A search returns exactly when the upstream replied with data and no
    turn of the loop threw; it returns what the loop collected. *)
Lemma searchPapers_returns (options : SearchOptions.t) (ps : list Paper.t) :
  Run.outcome (search options) = inr ps <->
  exists hit, upstream (request options) = Data hit
              /\ loop options (hitsOf hit) [] = inr ps.
Proof.
  unfold search, searchPapers, fetch. fold request.
  unfold Run.try_catch, Run.bind, Run.emit, Run.ret, Run.throw, Run.lift,
    console_error, Run.outcome. simpl.
  destruct (upstream (request options)) as [| status | | hit]; simpl;
    try (split; [discriminate | intros [h [H _]]; discriminate]).
  fold loop.
  destruct (loop options _ []) as [e|qs] eqn:L; simpl.
  - split; [discriminate|]. intros [h [[= <-] H]]. congruence.
  - split.
    + intros [= <-]. exists hit. split; [reflexivity | exact L].
    + intros [h [[= <-] H]]. congruence.
Qed.

(** What a search can throw. *)
Lemma searchPapers_throws (options : SearchOptions.t) (e : Exn) :
  Run.outcome (search options) = inl e ->
  e = FetchRejected \/ e = JsonRejected
  \/ (exists status, e = Error ("DBLP API error: " ++ Z_toString status)%string)
  \/ exists m, e = TypeError m.
Proof.
  unfold search, searchPapers, fetch. fold request.
  unfold Run.try_catch, Run.bind, Run.emit, Run.ret, Run.throw, Run.lift,
    console_error, Run.outcome. simpl.
  destruct (upstream (request options)) as [| status | | hit]; simpl.
  - intros [= <-]. now left.
  - intros [= <-]. right; right; left. now exists status.
  - intros [= <-]. right; now left.
  - fold loop. destruct (loop options _ []) as [e'|qs] eqn:L; simpl;
      [|discriminate].
    intros [= <-]. right; right; right. now apply hitsLoop_throws in L.
Qed.

(** *** The year filter *)


(** *** A list without resolvable keys *)

(** C9.  In a registry whose keys are in lower case, a request with a
    non-empty list none of whose keys resolves to a registry entry has a
    query without venue clause; every hit that the matcher maps to a
    conference is skipped; so every returned Paper is built from a hit
    that matches nothing and has tier [second] and the raw venue as
    [conference] and [conferenceFull]. *)
Theorem C9_unresolvable_list (options : SearchOptions.t) :
  has_length (SearchOptions.conferences options) = true ->
  existsb (fun c => is_own (info_of c)) (requested options) = false ->
  lowerCaseKeys all = true ->
  build options
  = join " "
      (QuerySpec.present (SearchOptions.keyword options)
       ++ map (fun a => ("author:" ++ a)%string)
              (QuerySpec.present (SearchOptions.author options)))
  /\ (forall hit key conf,
        matcher (venueText (info hit)) = inr (Some (key, conf)) ->
        process options hit = inr None)
  /\ (forall ps, Run.outcome (search options) = inr ps ->
      forall p, In p ps ->
      exists hit,
        matcher (venueText (info hit)) = inr None
        /\ Paper.tier p = second
        /\ Paper.conference p = DblpInfo.venue (info hit)
        /\ Paper.conferenceFull p = DblpInfo.venue (info hit)).
Proof.
  intros Hl Hun Hlow.
  assert (Hskip : forall hit key conf,
             matcher (venueText (info hit)) = inr (Some (key, conf)) ->
             process options hit = inr None).
  { intros hit key conf Hm.
    apply (@processHit_not_requested _ _ _ _ _ _ Hl Hm).
    destruct (array_includes (requested options) key) eqn:A; [|reflexivity].
    exfalso. unfold array_includes in A. apply existsb_exists in A.
    destruct A as [c [Hc Heq]]. apply String.eqb_eq in Heq. subst c.
    unfold matcher, matchConference in Hm.
    apply matchLoop_Some in Hm. destruct Hm as [Hin _].
    unfold entries in Hin. fold all in Hin.
    assert (Hk : toLowerCase key = key).
    { unfold lowerCaseKeys in Hlow. rewrite forallb_forall in Hlow.
      apply Hlow in Hin. simpl in Hin. now apply String.eqb_eq in Hin. }
    destruct (own_get_In _ _ _ Hin) as [conf' Hown].
    assert (Hfind : existsb (fun c => is_own (info_of c)) (requested options)
                    = true).
    { apply existsb_exists. exists key. split; [exact Hc|].
      unfold info_of, getConferenceInfo, get. fold all.
      now rewrite Hk, Hown. }
    congruence. }
  split; [|split].
  - unfold build, buildDblpQuery, targetConferences. rewrite Hl.
    rewrite filter_Boolean_unresolved.
    + rewrite !truthy_str_present. simpl.
      destruct (truthy_str (SearchOptions.keyword options));
        destruct (truthy_str (SearchOptions.author options)); reflexivity.
    + intros c Hc. unfold dblpKey_of. fold info_of.
      destruct (info_of c) as [conf| |] eqn:E; try reflexivity.
      exfalso.
      assert (existsb (fun c => is_own (info_of c)) (requested options) = true).
      { apply existsb_exists. exists c. split; [exact Hc|]. now rewrite E. }
      congruence.
  - exact Hskip.
  - intros ps Hrun p Hp.
    apply searchPapers_returns in Hrun. destruct Hrun as [hit [_ Hloop]].
    destruct (@hitsLoop_In _ _ _ _ _ _ Hloop p Hp) as [[] | [h [_ Hh]]].
    pose proof Hh as Hh'. apply processHit_Some in Hh'.
    destruct Hh' as [_ [matched [u [Hm [_ ->]]]]].
    destruct matched as [[key conf]|].
    + pose proof (Hskip _ _ _ Hm) as Hs. unfold process in Hs.
      rewrite Hs in Hh. discriminate.
    + exists h. simpl. auto.
Qed.

(** *** The limit *)

(** C10.  When [limit] is absent or 0, the request carries the hit count
    50; it is the one request of the run, and the run with limit 0 is the
    run without limit. *)
Theorem C10_falsy_limit_requests_50 (options : SearchOptions.t) :
  SearchOptions.limit options = None \/ SearchOptions.limit options = Some 0 ->
  h (request options) = "50"
  /\ (exists rest,
        Run.events (search options) = Fetch (request options) :: rest
        /\ forall r, ~ In (Fetch r) rest)
  /\ search options = search (with_limit None options).
Proof.
  intros Hl. split; [|split].
  - unfold request, the_request. simpl.
    destruct Hl as [-> | ->]; reflexivity.
  - destruct (searchPapers_events options) as [E | [e [E _]]];
      fold search request in E; rewrite E.
    + exists []. split; [reflexivity | intros r []].
    + exists [ConsoleError e]. split; [reflexivity|].
      intros r [H | []]. discriminate.
  - assert (R : request (with_limit None options) = request options).
    { unfold request, the_request, buildDblpQuery, targetConferences, requested.
      destruct options as [kw au yf yt cs t l]; simpl in *.
      destruct Hl as [-> | ->]; reflexivity. }
    unfold search, searchPapers. fold request loop. rewrite R.
    unfold Run.try_catch, Run.bind, fetch, Run.emit, Run.ret. simpl.
    destruct (upstream (request options)); try reflexivity.
    unfold loop. now rewrite hitsLoop_with_limit.
Qed.

(** *** Search by conference *)

(** An unregistered key that is not the name of an inherited member is
    rejected before anything is sent. *)
Lemma searchByConference_unknown (conferenceKey : string) (year : Z) :
  info_of conferenceKey = Undefined ->
  searchBy conferenceKey year
  = ([], inl (Error ("Unknown conference: " ++ conferenceKey)%string)).
Proof.
  intros H. unfold searchBy, searchByConference. fold info_of.
  now rewrite H.
Qed.

(** Any other key is passed on with the year as both bounds and the
    limit 200. *)
Lemma searchByConference_delegates (conferenceKey : string) (year : Z) :
  info_of conferenceKey <> Undefined ->
  searchBy conferenceKey year = search (conferenceOptions conferenceKey year)
  /\ SearchOptions.conferences (conferenceOptions conferenceKey year)
     = Some [conferenceKey]
  /\ SearchOptions.yearFrom (conferenceOptions conferenceKey year) = Some year
  /\ SearchOptions.yearTo (conferenceOptions conferenceKey year) = Some year
  /\ SearchOptions.limit (conferenceOptions conferenceKey year) = Some 200.
Proof.
  intros H. unfold searchBy, searchByConference. fold info_of.
  destruct (info_of conferenceKey); simpl; auto. contradiction.
Qed.

(** C5 (the code at the key [constructor]).  The claim: an unregistered
    key fails with the unknown-conference error and no upstream request.
    When no conference is registered under [constructor], the guard reads
    the member inherited from [Object.prototype], which is truthy: the
    call is passed on to [searchPapers], a request with an empty query
    and hit count 200 is sent, and the run does not end with the
    unknown-conference error. *)
Theorem C5_searchByConference_constructor_not_rejected (year : Z) :
  own_get all "constructor" = None ->
  searchBy "constructor" year = search (conferenceOptions "constructor" year)
  /\ (exists rest,
        Run.events (searchBy "constructor" year)
        = Fetch {| q := ""; format := "json"; h := "200";
                   userAgent := "SecurityPaperMCP/1.0" |} :: rest)
  /\ Run.outcome (searchBy "constructor" year)
     <> inl (Error "Unknown conference: constructor").
Proof.
  intros Hown.
  assert (Hinfo : info_of "constructor" = Inherited "constructor").
  { unfold info_of, getConferenceInfo, get. fold all.
    change (toLowerCase "constructor") with "constructor".
    now rewrite Hown. }
  assert (Hd : searchBy "constructor" year
               = search (conferenceOptions "constructor" year)).
  { apply searchByConference_delegates. rewrite Hinfo. discriminate. }
  assert (Hreq : request (conferenceOptions "constructor" year)
                 = {| q := ""; format := "json"; h := "200";
                      userAgent := "SecurityPaperMCP/1.0" |}).
  { unfold request, the_request, buildDblpQuery, targetConferences,
      requested, dblpKey_of. simpl. fold info_of. now rewrite Hinfo. }
  split; [exact Hd|]. rewrite Hd. split.
  - destruct (searchPapers_events (conferenceOptions "constructor" year))
      as [E | [e [E _]]]; fold search request in E; rewrite E, Hreq;
      eexists; reflexivity.
  - intros H. apply searchPapers_throws in H.
    destruct H as [H | [H | [[status H] | [m H]]]]; discriminate.
Qed.

End Search.

(* ===================================================================== *)
(** ** The theorems at concrete inputs *)
(* ===================================================================== *)




Lemma C6_witness :
  (Sample.processHit (Sample.options None None None None) workshop_2023
   = inr (Some workshop_paper)
   /\ Paper.conference workshop_paper = Some "Proceedings of WORKSHOP-XYZ 2023"
   /\ Paper.conferenceFull workshop_paper
      = Some "Proceedings of WORKSHOP-XYZ 2023"
   /\ Paper.tier workshop_paper = second)
  /\ (Sample.processHit (Sample.options (Some ["sp"]) None None None) sp_2023
      = inr (Some sp_paper)
      /\ Paper.tier sp_paper = top
      /\ Paper.conference sp_paper = Some "S&P").
Proof.
  split.
  - split; [reflexivity|].
    exact (@C6_paper_fields Sample.top_tier_members Sample.second_tier_members
             (Sample.options None None None None) workshop_2023
             workshop_paper eq_refl).
  - split; [reflexivity|].
    pose proof (@C6_paper_fields Sample.top_tier_members
                  Sample.second_tier_members
                  (Sample.options (Some ["sp"]) None None None) sp_2023
                  sp_paper eq_refl) as H.
    simpl in H. destruct H as [Ht [Hs _]].
    split; [exact Ht | apply Hs; discriminate].
Defined.

Lemma C9_witness :
  let options := Sample.options (Some ["doesnotexist"]) None None None in
  has_length (SearchOptions.conferences options) = true
  /\ lowerCaseKeys
       (getAllConferences Sample.top_tier_members Sample.second_tier_members)
     = true
  /\ Sample.buildDblpQuery options = ""
  /\ Run.outcome
       (Sample.searchPapers (Sample.always [sp_2023; workshop_2023]) options)
     = inr [workshop_paper]
  /\ Paper.tier workshop_paper = second.
Proof.
  intros options.
  pose proof (@C9_unresolvable_list Sample.top_tier_members
                Sample.second_tier_members
                (Sample.always [sp_2023; workshop_2023]) options
                eq_refl eq_refl eq_refl) as [Hq [_ Hps]].
  split; [reflexivity|]. split; [reflexivity|]. split; [exact Hq|].
  split; [reflexivity|].
  destruct (Hps [workshop_paper] eq_refl workshop_paper (or_introl eq_refl))
    as [hit [_ [Ht _]]].
  exact Ht.
Defined.

Lemma C10_witness :
  h (the_request Sample.top_tier_members Sample.second_tier_members
       (Sample.options None None None (Some 0)))
  = "50".
Proof.
  apply (@C10_falsy_limit_requests_50 Sample.top_tier_members
           Sample.second_tier_members (Sample.always [])
           (Sample.options None None None (Some 0))).
  right. reflexivity.
Defined.

Lemma C5_witness :
  own_get (getAllConferences Sample.top_tier_members
             Sample.second_tier_members) "constructor" = None
  /\ Run.outcome (Sample.searchByConference (Sample.always []) "constructor" 2024)
     <> inl (Error "Unknown conference: constructor").
Proof.
  split; [reflexivity|].
  apply (@C5_searchByConference_constructor_not_rejected
           Sample.top_tier_members Sample.second_tier_members
           (Sample.always []) 2024).
  reflexivity.
Defined.

(** Scenario C of the specification: an unregistered key. *)
Example searchByConference_doesnotexist :
  Sample.searchByConference (Sample.always [sp_2023]) "doesnotexist" 2024
  = ([], inl (Error "Unknown conference: doesnotexist")).
Proof. reflexivity. Qed.

(** Scenario A of the specification. *)
Example searchPapers_scenario_A :
  Sample.searchPapers
    (Sample.always
       [Sample.hit "A" "2024"
          (Some "IEEE Symposium on Security and Privacy (SP)")])
    (Sample.options (Some ["sp"]) (Some 2024) (Some 2024) None)
  = ([Fetch {| q := "venue:sp:"; format := "json"; h := "50";
               userAgent := "SecurityPaperMCP/1.0" |}],
     inr [paper "A" (Int 2024) "S&P" "IEEE Symposium on Security and Privacy"
            top (Some "https://sp2024.ieee-security.org/")]).
Proof. reflexivity. Qed.

(** A zero lower bound is no bound. *)
Example searchPapers_zero_bound :
  Run.outcome
    (Sample.searchPapers
       (Sample.always [Sample.hit "F" "-1" None])
       (Sample.options None (Some 0) (Some 10) None))
  = inr [{| Paper.title := "F"; Paper.authors := []; Paper.year := Int (-1);
            Paper.conference := None; Paper.conferenceFull := None;
            Paper.tier := second; Paper.url := None; Paper.doi := None;
            Paper.conferenceUrl := None |}].
Proof. reflexivity. Qed.

(* ===================================================================== *)
(** ** Objects: defining and reading properties *)
(* ===================================================================== *)

Lemma keys_own_get {V} (o : obj V) (k : string) :
  In k (keys o) <-> exists v, own_get o k = Some v.
Proof.
  induction o as [|[k' v'] r IH]; simpl.
  - split; [tauto | intros [v H]; discriminate].
  - destruct (String.eqb_spec k k') as [->|n].
    + split; [intros _; now exists v' | now left].
    + rewrite <- IH. split; [intros [H | H]; [congruence | exact H] | now right].
Qed.

Lemma own_get_None_keys {V} (o : obj V) (k : string) :
  own_get o k = None <-> ~ In k (keys o).
Proof.
  rewrite keys_own_get. destruct (own_get o k) as [v|].
  - split; [discriminate | intros H; exfalso; apply H; now exists v].
  - split; [intros _ [v H]; discriminate | reflexivity].
Qed.

Lemma own_get_replace {V} (o : obj V) (k k' : string) (v : V) :
  own_get (replace o k v) k'
  = if String.eqb k' k then option_map (fun _ => v) (own_get o k)
    else own_get o k'.
Proof.
  induction o as [|[k0 v0] r IH]; simpl.
  - now destruct (String.eqb k' k).
  - destruct (String.eqb_spec k k0) as [->|n]; simpl.
    + destruct (String.eqb_spec k' k0) as [->|n']; reflexivity.
    + rewrite IH. destruct (String.eqb_spec k' k0) as [->|n'].
      * destruct (String.eqb_spec k0 k); [congruence | reflexivity].
      * reflexivity.
Qed.

Lemma keys_replace {V} (o : obj V) (k : string) (v : V) :
  keys (replace o k v) = keys o.
Proof.
  induction o as [|[k0 v0] r IH]; simpl; [reflexivity|].
  destruct (String.eqb k k0); simpl; [reflexivity | now rewrite IH].
Qed.

Lemma own_get_insert_index {V} (o : obj V) (i : Z) (k k' : string) (v : V) :
  own_get o k = None ->
  own_get (insert_index o i k v) k'
  = if String.eqb k' k then Some v else own_get o k'.
Proof.
  induction o as [|[k0 v0] r IH]; simpl; intros Hk; [reflexivity|].
  destruct (String.eqb_spec k k0) as [->|n]; [discriminate|].
  destruct (array_index k0) as [j|]; [destruct (j <? i)|]; simpl;
    try reflexivity.
  rewrite (IH Hk).
  destruct (String.eqb_spec k' k0) as [->|n'].
  - destruct (String.eqb_spec k0 k); [congruence | reflexivity].
  - reflexivity.
Qed.

Lemma keys_insert_index {V} (o : obj V) (i : Z) (k : string) (v : V) :
  Permutation (keys (insert_index o i k v)) (k :: keys o).
Proof.
  induction o as [|[k0 v0] r IH]; simpl; [reflexivity|].
  destruct (array_index k0) as [j|]; [destruct (j <? i)|]; simpl;
    try reflexivity.
  rewrite IH. apply perm_swap.
Qed.

Lemma own_get_app {V} (o1 o2 : obj V) (k : string) :
  own_get (o1 ++ o2) k
  = match own_get o1 k with
    | Some v => Some v
    | None => own_get o2 k
    end.
Proof.
  induction o1 as [|[k0 v0] r IH]; simpl; [reflexivity|].
  now destruct (String.eqb k k0).
Qed.

(** Reading after defining: the defined name has the new value, every
    other name is untouched. *)
Lemma own_get_set {V} (o : obj V) (k k' : string) (v : V) :
  own_get (set o k v) k' = if String.eqb k' k then Some v else own_get o k'.
Proof.
  unfold set. destruct (own_get o k) as [v0|] eqn:E.
  - rewrite own_get_replace, E. reflexivity.
  - destruct (array_index k) as [i|].
    + now apply own_get_insert_index.
    + rewrite own_get_app. simpl.
      destruct (String.eqb_spec k' k) as [->|n].
      * now rewrite E.
      * now destruct (own_get o k').
Qed.

(** Defining a property keeps the names distinct. *)
Lemma NoDup_keys_set {V} (o : obj V) (k : string) (v : V) :
  NoDup (keys o) -> NoDup (keys (set o k v)).
Proof.
  intros H. unfold set. destruct (own_get o k) as [v0|] eqn:E.
  - now rewrite keys_replace.
  - apply own_get_None_keys in E.
    assert (N : NoDup (k :: keys o)) by now constructor.
    destruct (array_index k) as [i|].
    + eapply Permutation_NoDup; [|exact N].
      symmetry. apply keys_insert_index.
    + unfold keys. rewrite map_app. simpl.
      eapply Permutation_NoDup; [|exact N].
      apply Permutation_cons_append.
Qed.

Lemma NoDup_keys_spread {V} (target source : obj V) :
  NoDup (keys target) -> NoDup (keys (spread target source)).
Proof.
  unfold spread. revert target.
  induction source as [|[k v] r IH]; intros target H; simpl; [exact H|].
  apply IH. now apply NoDup_keys_set.
Qed.

(** Reading after spreading: the last entry of the source under the name
    wins, else the target is read. *)
Lemma own_get_spread {V} (target source : obj V) (k : string) :
  own_get (spread target source) k
  = match own_get (rev source) k with
    | Some v => Some v
    | None => own_get target k
    end.
Proof.
  unfold spread. revert target.
  induction source as [|[k0 v0] r IH]; intros target; simpl; [reflexivity|].
  rewrite IH, own_get_app, own_get_set. simpl.
  destruct (own_get (rev r) k); [reflexivity|].
  now destruct (String.eqb k k0).
Qed.

Lemma own_get_NoDup_In {V} (o : obj V) (k : string) (v : V) :
  NoDup (keys o) -> In (k, v) o -> own_get o k = Some v.
Proof.
  induction o as [|[k0 v0] r IH]; simpl; [tauto|].
  intros N [H | H].
  - injection H as -> ->. now rewrite String.eqb_refl.
  - inversion N as [|? ? Hn N']; subst.
    destruct (String.eqb_spec k k0) as [->|n].
    + exfalso. apply Hn. change (In (fst (k0, v)) (map fst r)).
      now apply in_map.
    + now apply IH.
Qed.

Lemma own_get_rev {V} (o : obj V) (k : string) :
  NoDup (keys o) -> own_get (rev o) k = own_get o k.
Proof.
  intros N.
  assert (N' : NoDup (keys (rev o))).
  { unfold keys. rewrite map_rev. now apply NoDup_rev. }
  destruct (own_get o k) as [v|] eqn:E.
  - apply own_get_NoDup_In; [exact N'|].
    apply in_rev. rewrite rev_involutive. now apply own_get_Some_In.
  - destruct (own_get (rev o) k) as [v|] eqn:E'; [|reflexivity].
    apply own_get_Some_In in E'. apply in_rev in E'.
    apply (own_get_NoDup_In _ _ _ N) in E'. congruence.
Qed.

Lemma NoDup_keys_of_members {V} (ms : list (string * V)) :
  NoDup (keys (of_members ms)).
Proof. apply NoDup_keys_spread. constructor. Qed.

(* ===================================================================== *)
(** ** Numbers printed as property names *)
(* ===================================================================== *)

Lemma to_int_not_nil (z : Z) :
  Z.to_int z <> Decimal.Pos Decimal.Nil /\ Z.to_int z <> Decimal.Neg Decimal.Nil.
Proof.
  pose proof (DecimalZ.to_of (Z.to_int z)) as H.
  rewrite DecimalZ.of_to in H.
  split; intros E; rewrite E in H; vm_compute in H; discriminate H.
Qed.

Lemma Z_toString_inj (a b : Z) : Z_toString a = Z_toString b -> a = b.
Proof.
  unfold Z_toString. intros H.
  apply (f_equal NilZero.int_of_string) in H.
  destruct (to_int_not_nil a) as [Ha1 Ha2].
  destruct (to_int_not_nil b) as [Hb1 Hb2].
  rewrite !NilZero.isi in H by assumption.
  injection H as H. now apply DecimalZ.to_int_inj.
Qed.

(** A printed integer begins with a digit or a minus sign. *)
Lemma Z_toString_head (z : Z) :
  exists c r, Z_toString z = String c r
              /\ In c ["-"; "0"; "1"; "2"; "3"; "4"; "5"; "6"; "7"; "8"; "9"]%char.
Proof.
  unfold Z_toString.
  destruct (Z.to_int z) as [d|d]; [|eexists; eexists; split;
                                    [reflexivity | now left]].
  destruct d; simpl; eexists; eexists; (split; [reflexivity|]);
    simpl; tauto.
Qed.

(** A printed year is no name of [Object.prototype], nor [undefined]. *)
Lemma toString_plain (y : JsNum) :
  existsb (String.eqb (toString y)) prototype_names = false
  /\ toString y <> "__proto__".
Proof.
  destruct y as [|z]; [split; [reflexivity | discriminate]|].
  simpl. destruct (Z_toString_head z) as [c [r [-> Hc]]].
  simpl in Hc.
  repeat (destruct Hc as [<- | Hc]; [split; [reflexivity | discriminate]|]).
  contradiction.
Qed.

Lemma toString_inj (a b : JsNum) : toString a = toString b -> a = b.
Proof.
  destruct a as [|x], b as [|y]; simpl; intros H.
  - reflexivity.
  - exfalso. destruct (Z_toString_head y) as [c [r [E Hc]]].
    rewrite E in H. injection H as <- _. simpl in Hc.
    repeat (destruct Hc as [Hc | Hc]; [discriminate Hc|]). contradiction.
  - exfalso. destruct (Z_toString_head x) as [c [r [E Hc]]].
    rewrite E in H. injection H as -> _. simpl in Hc.
    repeat (destruct Hc as [Hc | Hc]; [discriminate Hc|]). contradiction.
  - f_equal. now apply Z_toString_inj.
Qed.

(** The read of [conf.urls] under a printed year finds an own property or
    nothing: the prototype plays no part in [getConferenceWebsiteUrl]. *)
Lemma urls_read_own (o : obj string) (y : JsNum) :
  get o (toString y)
  = match own_get o (toString y) with
    | Some u => Own u
    | None => Undefined
    end.
Proof.
  unfold get. destruct (own_get o (toString y)); [reflexivity|].
  now rewrite (proj1 (toString_plain y)).
Qed.

(* ===================================================================== *)
(** ** The registry as one object *)
(* ===================================================================== *)

Section RegistryUnion.

Variables top_tier_members second_tier_members : list (string * ConferenceInfo).

Let top := top_tier top_tier_members.
Let snd_tier := second_tier second_tier_members.
Let all := getAllConferences top_tier_members second_tier_members.
Let info_of := getConferenceInfo top_tier_members second_tier_members.

Lemma getAllConferences_own_get (k : string) :
  own_get all k
  = match own_get snd_tier k with
    | Some conf => Some conf
    | None => own_get top k
    end.
Proof.
  unfold all, getAllConferences. rewrite !own_get_spread. simpl.
  fold top snd_tier.
  rewrite !own_get_rev by apply NoDup_keys_of_members.
  now destruct (own_get top k).
Qed.

Lemma getAllConferences_NoDup : NoDup (keys all).
Proof.
  unfold all, getAllConferences. apply NoDup_keys_spread.
  apply NoDup_keys_spread. constructor.
Qed.

(** X1.  [getAllConferences()] is the union of the two tiers in which
    the second tier wins: reading a key gives the second-tier entry when
    there is one, else the top-tier entry, else nothing; its keys are the
    keys of the two tiers. *)
Theorem getAllConferences_second_tier_wins (k : string) :
  own_get all k
  = match own_get snd_tier k with
    | Some conf => Some conf
    | None => own_get top k
    end
  /\ (In k (keys all) <-> In k (keys top) \/ In k (keys snd_tier)).
Proof.
  split; [apply getAllConferences_own_get|].
  rewrite !keys_own_get, getAllConferences_own_get.
  destruct (own_get snd_tier k) as [c|]; split.
  - intros _. right. now exists c.
  - intros _. now exists c.
  - intros H. now left.
  - intros [H | [v H]]; [exact H | discriminate].
Qed.

(** X2.  [Object.entries(getAllConferences())] lists every key once,
    and lists a key with an entry exactly when reading the key gives
    that entry; the keys of [getConferencesByTier(t)] are among them for
    every tier. *)
Theorem getAllConferences_entries_agree_with_lookup :
  NoDup (keys all)
  /\ (forall k conf, In (k, conf) (entries all) <-> own_get all k = Some conf)
  /\ (forall t k,
        In k (keys (getConferencesByTier top_tier_members
                      second_tier_members t)) ->
        In k (keys all)).
Proof.
  split; [apply getAllConferences_NoDup|]. split.
  - intros k conf. split.
    + apply own_get_NoDup_In. apply getAllConferences_NoDup.
    + apply own_get_Some_In.
  - intros t k H. rewrite keys_own_get, getAllConferences_own_get.
    destruct t; simpl in H.
    + fold top in H. apply keys_own_get in H. destruct H as [v H].
      rewrite H. destruct (own_get snd_tier k); eauto.
    + fold snd_tier in H. apply keys_own_get in H. destruct H as [v H].
      rewrite H. eauto.
    + fold all in H. apply keys_own_get in H.
      now rewrite getAllConferences_own_get in H.
Qed.

(** A listed entry under a lower-case key is what the lookup returns. *)
Lemma getConferenceInfo_listed (k : string) (conf : ConferenceInfo) :
  In (k, conf) (entries all) -> toLowerCase k = k -> info_of k = Own conf.
Proof.
  intros Hin Hk. unfold info_of, getConferenceInfo, get. fold all.
  rewrite Hk.
  now rewrite (own_get_NoDup_In _ _ _ getAllConferences_NoDup Hin).
Qed.


End RegistryUnion.

(* ===================================================================== *)
(** ** More on the venue matcher *)
(* ===================================================================== *)



Lemma includes_empty_text (t : string) :
  includes "" t = true <-> t = "".
Proof.
  change (includes "" t) with (String.prefix t "" || false).
  rewrite orb_false_r. destruct t; simpl; split; congruence.
Qed.

(** Every auxiliary name of the table is a non-empty string. *)
Lemma auxiliaryNames_non_empty (key m : string) :
  In m (auxiliaryNames key) -> m <> "".
Proof.
  unfold auxiliaryNames, get.
  destruct (own_get DBLP_VENUE_MAPPINGS key) as [ms|] eqn:E.
  - apply own_get_Some_In in E. vm_compute in E.
    repeat (destruct E as [E | E];
            [injection E as <- <-; simpl; intros H;
             repeat (destruct H as [<- | H]; [discriminate|]);
             contradiction|]).
    contradiction.
  - destruct (existsb _ prototype_names); simpl; tauto.
Qed.

(** When the body of the loop runs to its end, it fires exactly when a
    rule applies. *)
Lemma matchEntry_ruleApplies (venueLower key : string) (conf : ConferenceInfo)
    (b : bool) :
  matchEntry venueLower key conf = inr b -> b = ruleApplies venueLower key conf.
Proof.
  unfold matchEntry, ruleApplies, auxiliaryNames.
  destruct (get DBLP_VENUE_MAPPINGS key) as [ms|n|];
    destruct (includes venueLower (dblpKey conf)); cbn [Res_bind orb];
    try congruence.
  - destruct (existsb (includes venueLower) ms); cbn [orb]; congruence.
  - cbn [existsb orb]. congruence.
Qed.

(** Under a key that is no name of [Object.prototype] the body runs to
    its end. *)
Lemma matchEntry_plain (venueLower key : string) (conf : ConferenceInfo) :
  existsb (String.eqb key) prototype_names = false ->
  matchEntry venueLower key conf = inr (ruleApplies venueLower key conf).
Proof.
  intros H. unfold matchEntry, ruleApplies, auxiliaryNames, get.
  rewrite H.
  destruct (own_get DBLP_VENUE_MAPPINGS key) as [ms|];
    destruct (includes venueLower (dblpKey conf)); try reflexivity.
  cbn [Res_bind orb]. now destruct (existsb (includes venueLower) ms).
Qed.

Lemma matchLoop_plain (venueLower : string)
    (es : list (string * ConferenceInfo)) :
  plainKeys es = true -> exists r, matchLoop venueLower es = inr r.
Proof.
  induction es as [|[k c] es IH]; simpl; [now exists None|].
  intros H. apply andb_prop in H. destruct H as [Hk Hes].
  apply negb_true_iff in Hk. cbn [fst] in Hk.
  rewrite (@matchEntry_plain _ _ _ Hk). cbn [Res_bind].
  destruct (ruleApplies venueLower k c); [eauto | auto].
Qed.


Section MatcherMore.

Variables top_tier_members second_tier_members : list (string * ConferenceInfo).

Let all := getAllConferences top_tier_members second_tier_members.
Let matcher := matchConference top_tier_members second_tier_members.

(** X4.  A match is always justified and a miss is always complete: the
    returned conference is listed in the registry and one of the three
    rules applies to it on the lower-cased text; when no match is
    reported, no rule applies to any listed conference. *)
Theorem matchConference_sound_and_complete (venue : string) :
  (forall key conf,
     matcher venue = inr (Some (key, conf)) ->
     In (key, conf) (entries all)
     /\ ruleApplies (toLowerCase venue) key conf = true)
  /\ (matcher venue = inr None ->
      forall key conf,
        In (key, conf) (entries all) ->
        ruleApplies (toLowerCase venue) key conf = false).
Proof.
  unfold matcher, matchConference. fold all. split.
  - intros key conf H. apply matchLoop_Some in H. destruct H as [Hin Hm].
    split; [exact Hin|]. now apply matchEntry_ruleApplies in Hm.
  - intros H key conf Hin.
    pose proof (matchLoop_None _ _ H _ _ Hin) as Hm.
    now apply matchEntry_ruleApplies in Hm.
Qed.

(** X5.  On venue text over the ASCII alphabet the matcher does not see
    the letter case: the text in upper case and the text in lower case
    give the result of the text itself. *)
Theorem matchConference_venue_case_insensitive (venue : string) :
  isAscii venue = true ->
  matcher (toUpperCase venue) = matcher venue
  /\ matcher (toLowerCase venue) = matcher venue.
Proof.
  intros _. unfold matcher, matchConference.
  now rewrite toLowerCase_toUpperCase, toLowerCase_idempotent.
Qed.

(** X6.  With a registry none of whose keys is the name of a member of
    [Object.prototype], the matcher returns for every venue text: it
    never throws. *)
Theorem matchConference_returns (venue : string) :
  plainKeys all = true -> exists r, matcher venue = inr r.
Proof.
  intros H. unfold matcher, matchConference. fold all.
  now apply matchLoop_plain.
Qed.

Lemma ruleApplies_empty_text (key : string) (conf : ConferenceInfo) :
  truthy_string key && truthy_string (shortName conf)
  && truthy_string (dblpKey conf) = true ->
  ruleApplies "" key conf = false.
Proof.
  intros H. apply andb_prop in H. destruct H as [H Hd].
  apply andb_prop in H. destruct H as [Hk Hs].
  unfold truthy_string in *. apply negb_true_iff in Hk, Hs, Hd.
  apply String.eqb_neq in Hk, Hs, Hd.
  assert (F : forall t, t <> "" -> includes "" t = false).
  { intros t Ht. destruct (includes "" t) eqn:E; [|reflexivity].
    apply includes_empty_text in E. contradiction. }
  assert (Hs' : toLowerCase (shortName conf) <> "")
    by (destruct (shortName conf); [congruence | discriminate]).
  unfold ruleApplies. rewrite (F _ Hd), (F _ Hk), (F _ Hs'), !orb_false_r.
  cbn [orb].
  destruct (existsb (includes "") (auxiliaryNames key)) eqn:E; [|reflexivity].
  apply existsb_exists in E. destruct E as [m [Hm Hi]].
  apply includes_empty_text in Hi.
  now apply auxiliaryNames_non_empty in Hm.
Qed.

Lemma matchLoop_empty_text (es : list (string * ConferenceInfo)) :
  plainKeys es = true -> nonEmptyNames es = true ->
  matchLoop "" es = inr None.
Proof.
  induction es as [|[k c] es IH]; simpl; [reflexivity|].
  intros Hp Hn. apply andb_prop in Hp, Hn.
  destruct Hp as [Hk Hp], Hn as [Hkc Hn].
  apply negb_true_iff in Hk. cbn [fst snd] in Hk, Hkc.
  rewrite (@matchEntry_plain _ _ _ Hk), (@ruleApplies_empty_text _ _ Hkc).
  cbn [Res_bind]. now apply IH.
Qed.

(** X7.  In a registry whose keys, short names and identifiers are
    non-empty and whose keys are no names of [Object.prototype], an
    empty venue text matches no conference; so a hit without venue,
    once inside the year bounds, yields a Paper whose conference fields
    are the hit's own absent or empty venue, with tier [second]. *)
Theorem matchConference_empty_venue (options : SearchOptions.t)
    (hit : DblpHit) :
  plainKeys all = true -> nonEmptyNames all = true ->
  matcher "" = inr None
  /\ (truthy_str (DblpInfo.venue (info hit)) = None ->
      outsideYears options (parseInt (DblpInfo.year (info hit))) = false ->
      exists p,
        processHit top_tier_members second_tier_members options hit
        = inr (Some p)
        /\ Paper.conference p = DblpInfo.venue (info hit)
        /\ Paper.conferenceFull p = DblpInfo.venue (info hit)
        /\ Paper.tier p = second
        /\ Paper.conferenceUrl p = None).
Proof.
  intros Hp Hn.
  assert (E : matcher "" = inr None).
  { unfold matcher, matchConference. fold all. simpl.
    now apply matchLoop_empty_text. }
  split; [exact E|]. intros Hv Hy.
  eexists. split.
  - apply processHit_unmatched; [exact Hy|].
    unfold venueText. rewrite Hv. exact E.
  - simpl. auto.
Qed.


End MatcherMore.

(* ===================================================================== *)
(** ** The order of the matcher *)
(* ===================================================================== *)

(** In a list without names of [Object.prototype] among its keys, the
    loop returns the first entry to which a rule applies. *)
Lemma matchLoop_find (venueLower : string)
    (es : list (string * ConferenceInfo)) :
  plainKeys es = true ->
  matchLoop venueLower es
  = inr (find (fun e => ruleApplies venueLower (fst e) (snd e)) es).
Proof.
  induction es as [|[k c] es IH]; [reflexivity|].
  intros H. apply andb_prop in H. destruct H as [Hk Hes].
  apply negb_true_iff in Hk. cbn [fst] in Hk.
  cbn [matchLoop find fst snd].
  rewrite (@matchEntry_plain venueLower k c Hk). cbn [Res_bind].
  destruct (ruleApplies venueLower k c); [reflexivity | now apply IH].
Qed.

Lemma find_first {A} (f : A -> bool) (pre post : list A) (x : A) :
  f x = true -> (forall y, In y pre -> f y = false) ->
  find f (pre ++ x :: post) = Some x.
Proof.
  intros Hx Hpre. induction pre as [|y pre IH]; simpl.
  - now rewrite Hx.
  - rewrite (Hpre y) by now left. apply IH. intros z Hz. apply Hpre.
    now right.
Qed.

Lemma ruleApplies_identifier (venueLower key : string) (conf : ConferenceInfo) :
  includes venueLower (dblpKey conf) = true ->
  ruleApplies venueLower key conf = true.
Proof. intros H. unfold ruleApplies. now rewrite H. Qed.

Section MatcherOrder.

Variables top_tier_members second_tier_members : list (string * ConferenceInfo).

Let all := getAllConferences top_tier_members second_tier_members.
Let matcher := matchConference top_tier_members second_tier_members.

(** C1 (as amended).  In a registry none of whose keys is the name of a
    member of [Object.prototype], the matcher returns the first
    conference, in registry order, to which one of the three rules
    applies on the lower-cased text (its identifier, one of its auxiliary
    names, its key or its lower-cased short name occurs in it), and null
    when there is none.  The identifier rule therefore has priority
    inside one conference only: a conference whose identifier occurs in
    the text is returned provided no rule applies to a conference before
    it; otherwise the earliest conference to which a rule applies is
    returned. *)
Theorem C1_matchConference_earliest_rule_match (venue : string) :
  plainKeys all = true ->
  matcher venue
  = inr (find (fun e => ruleApplies (toLowerCase venue) (fst e) (snd e))
           (entries all))
  /\ (forall pre key conf post,
        entries all = pre ++ (key, conf) :: post ->
        includes (toLowerCase venue) (dblpKey conf) = true ->
        (forall k c, In (k, c) pre ->
           ruleApplies (toLowerCase venue) k c = false) ->
        matcher venue = inr (Some (key, conf)))
  /\ (forall pre key conf post,
        entries all = pre ++ (key, conf) :: post ->
        ruleApplies (toLowerCase venue) key conf = true ->
        (forall k c, In (k, c) pre ->
           ruleApplies (toLowerCase venue) k c = false) ->
        matcher venue = inr (Some (key, conf)))
  /\ ((forall key conf, In (key, conf) (entries all) ->
         ruleApplies (toLowerCase venue) key conf = false) ->
      matcher venue = inr None).
Proof.
  intros Hplain.
  assert (E : matcher venue
              = inr (find (fun e => ruleApplies (toLowerCase venue)
                                      (fst e) (snd e)) (entries all))).
  { unfold matcher, matchConference. fold all. now apply matchLoop_find. }
  assert (First : forall pre key conf post,
             entries all = pre ++ (key, conf) :: post ->
             ruleApplies (toLowerCase venue) key conf = true ->
             (forall k c, In (k, c) pre ->
                ruleApplies (toLowerCase venue) k c = false) ->
             matcher venue = inr (Some (key, conf))).
  { intros pre key conf post Hall Hrule Hpre. rewrite E, Hall. f_equal.
    apply find_first; [exact Hrule|]. intros [k c] Hin. now apply Hpre. }
  split; [exact E|]. split; [|split].
  - intros pre key conf post Hall Hid Hpre.
    apply (First pre key conf post Hall); [|exact Hpre].
    now apply ruleApplies_identifier.
  - exact First.
  - intros Hnone. rewrite E. f_equal.
    destruct (find _ (entries all)) as [[k c]|] eqn:F; [|reflexivity].
    apply find_some in F. destruct F as [Hin Hr]. cbn [fst snd] in Hr.
    rewrite (Hnone k c Hin) in Hr. discriminate.
Qed.

End MatcherOrder.

Lemma C1_witness :
  plainKeys (getAllConferences Sample.top_tier_members
               Sample.second_tier_members) = true
  /\ Sample.matchConference "NDSS Symposium 2024"
     = inr (Some ("ndss",
                  Sample.conf
                    "Network and Distributed System Security Symposium"
                    "NDSS" top
                    [("2024", "https://www.ndss-symposium.org/ndss2024/")]
                    "ndss"))
  /\ Sample.matchConference "USENIX Workshop co-located with NDSS"
     = inr (Some ("usenix",
                  Sample.conf "USENIX Security Symposium" "USENIX Security"
                    top
                    [("2024",
                      "https://www.usenix.org/conference/usenixsecurity24")]
                    "uss")).
Proof.
  split; [reflexivity|]. split.
  - refine (proj1 (proj2 (@C1_matchConference_earliest_rule_match
                            Sample.top_tier_members
                            Sample.second_tier_members
                            "NDSS Symposium 2024" eq_refl))
              (firstn 3 Sample.top_tier_members) _ _
              Sample.second_tier_members eq_refl eq_refl _).
    intros k c H. simpl in H.
    repeat (destruct H as [H | H]; [injection H as <- <-; reflexivity|]).
    contradiction.
  - refine (proj1 (proj2 (proj2 (@C1_matchConference_earliest_rule_match
                                   Sample.top_tier_members
                                   Sample.second_tier_members
                                   "USENIX Workshop co-located with NDSS"
                                   eq_refl)))
              (firstn 1 Sample.top_tier_members) _ _
              (skipn 2 Sample.top_tier_members ++ Sample.second_tier_members)
              eq_refl eq_refl _).
    intros k c H. simpl in H.
    repeat (destruct H as [H | H]; [injection H as <- <-; reflexivity|]).
    contradiction.
Defined.

(* ===================================================================== *)
(** ** More on the search *)
(* ===================================================================== *)

(** The papers that the answers of the turns of the loop stand for. *)
Lemma outsideYears_false (options : SearchOptions.t) (y : Z) :
  outsideYears options (Int y) = false ->
  (forall f, truthy_num (SearchOptions.yearFrom options) = Some f -> f <= y)
  /\ (forall t, truthy_num (SearchOptions.yearTo options) = Some t -> y <= t).
Proof.
  unfold outsideYears, greater, less. intros H.
  apply orb_false_elim in H. destruct H as [H1 H2]. split.
  - intros f E. rewrite E in H1. apply Z.ltb_ge in H1. lia.
  - intros t E. rewrite E in H2. apply Z.ltb_ge in H2. lia.
Qed.

Section LoopMore.

Variables top_tier_members second_tier_members : list (string * ConferenceInfo).

Let all := getAllConferences top_tier_members second_tier_members.
Let info_of := getConferenceInfo top_tier_members second_tier_members.
Let matcher := matchConference top_tier_members second_tier_members.
Let websiteUrl := getConferenceWebsiteUrl top_tier_members second_tier_members.
Let process := processHit top_tier_members second_tier_members.
Let loop := hitsLoop top_tier_members second_tier_members.

(** The loop returns exactly when every turn returns; the result is the
    accumulator followed by the papers of the turns, in order. *)
Lemma hitsLoop_turns (options : SearchOptions.t) (hits : list DblpHit)
    (acc ps : list Paper.t) :
  loop options hits acc = inr ps <->
  exists rs,
    Forall2 (fun hit r => process options hit = inr r) hits rs
    /\ ps = acc ++ flat_map (fun r => match r with Some p => [p] | None => [] end) rs.
Proof.
  revert acc. induction hits as [|h hits IH]; intros acc; simpl.
  - split.
    + intros [= <-]. exists []. split; [constructor | now rewrite app_nil_r].
    + intros [rs [F ->]]. inversion F. simpl. now rewrite app_nil_r.
  - fold process. destruct (process options h) as [e|r] eqn:E; simpl.
    + split; [discriminate|]. intros [rs [F _]]. inversion F; congruence.
    + destruct r as [p|]; rewrite IH; split.
      * intros [rs [F ->]]. exists (Some p :: rs). split; [now constructor|].
        simpl. now rewrite <- app_assoc.
      * intros [rs [F ->]]. inversion F as [|? r' ? rs' Hr F']; subst.
        exists rs'. split; [exact F'|].
        assert (r' = Some p) by congruence. subst. simpl.
        now rewrite <- app_assoc.
      * intros [rs [F ->]]. exists (None :: rs). split; [now constructor|].
        reflexivity.
      * intros [rs [F ->]]. inversion F as [|? r' ? rs' Hr F']; subst.
        exists rs'. split; [exact F'|].
        assert (r' = None) by congruence. now subst.
Qed.

(** For a listed conference under a lower-case key, the URL is read from
    the entry itself and nothing is thrown. *)
Lemma getConferenceWebsiteUrl_listed (key : string) (conf : ConferenceInfo)
    (year : JsNum) :
  lowerCaseKeys all = true -> In (key, conf) (entries all) ->
  websiteUrl key year = inr (own_get (urls conf) (toString year)).
Proof.
  intros Hlow Hin. unfold websiteUrl, getConferenceWebsiteUrl.
  assert (Hk : toLowerCase key = key).
  { unfold lowerCaseKeys in Hlow. rewrite forallb_forall in Hlow.
    apply Hlow in Hin. now apply String.eqb_eq in Hin. }
  unfold all in Hin.
  now rewrite (@getConferenceInfo_listed _ _ _ _ Hin Hk).
Qed.

(** What a turn of the loop does, once the matcher has answered. *)
Lemma processHit_matched (options : SearchOptions.t) (hit : DblpHit)
    (matched : option (string * ConferenceInfo)) :
  lowerCaseKeys all = true ->
  matcher (venueText (info hit)) = inr matched ->
  process options hit
  = inr (if outsideYears options (parseInt (DblpInfo.year (info hit)))
            || notRequested options matched
         then None
         else Some (paperOf (info hit) (extractAuthors (info hit))
                      (parseInt (DblpInfo.year (info hit))) matched
                      match matched with
                      | Some (_, conf) =>
                          own_get (urls conf)
                            (toString (parseInt (DblpInfo.year (info hit))))
                      | None => None
                      end)).
Proof.
  intros Hlow Hm. unfold process, processHit. fold matcher websiteUrl.
  destruct (outsideYears options _); [reflexivity|].
  rewrite Hm. cbn [Res_bind orb].
  destruct (notRequested options matched); [reflexivity|].
  destruct matched as [[key conf]|]; [|reflexivity].
  unfold matcher, matchConference in Hm. apply matchLoop_Some in Hm.
  destruct Hm as [Hin _].
  now rewrite (@getConferenceWebsiteUrl_listed _ _ _ Hlow Hin).
Qed.

(** With plain lower-case keys, no turn of the loop throws. *)
Lemma processHit_returns (options : SearchOptions.t) (hit : DblpHit) :
  plainKeys all = true -> lowerCaseKeys all = true ->
  exists r, process options hit = inr r.
Proof.
  intros Hp Hlow.
  destruct (@matchLoop_plain (toLowerCase (venueText (info hit))) _ Hp)
    as [matched Hm].
  rewrite (@processHit_matched options _ _ Hlow Hm). eauto.
Qed.

Lemma hitsLoop_returns (options : SearchOptions.t) (hits : list DblpHit)
    (acc : list Paper.t) :
  plainKeys all = true -> lowerCaseKeys all = true ->
  exists ps, loop options hits acc = inr ps.
Proof.
  intros Hp Hlow. revert acc.
  induction hits as [|h hits IH]; intros acc; simpl; [eauto|].
  fold process. destruct (@processHit_returns options h Hp Hlow) as [r ->].
  simpl. destruct r; apply IH.
Qed.

End LoopMore.

Section SearchMore.

Variables top_tier_members second_tier_members : list (string * ConferenceInfo).
Variable upstream : Request -> Reply.

Let all := getAllConferences top_tier_members second_tier_members.
Let info_of := getConferenceInfo top_tier_members second_tier_members.
Let matcher := matchConference top_tier_members second_tier_members.
Let process := processHit top_tier_members second_tier_members.
Let loop := hitsLoop top_tier_members second_tier_members.
Let request := the_request top_tier_members second_tier_members.
Let search := searchPapers top_tier_members second_tier_members upstream.
Let searchBy := searchByConference top_tier_members second_tier_members upstream.

(** X9.  The result keeps the upstream order and never has more Papers
    than there were hits: it is obtained from the hits, in order, by
    dropping the skipped ones and building a Paper from each other one. *)
Theorem searchPapers_keeps_upstream_order (options : SearchOptions.t)
    (ps : list Paper.t) :
  Run.outcome (search options) = inr ps ->
  exists hit rs,
    upstream (request options) = Data hit
    /\ Forall2 (fun h r => process options h = inr r) (hitsOf hit) rs
    /\ ps = flat_map (fun r => match r with Some p => [p] | None => [] end) rs
    /\ (length ps <= length (hitsOf hit))%nat.
Proof.
  intros H. apply searchPapers_returns in H. destruct H as [hit [Hu Hl]].
  fold loop in Hl. apply hitsLoop_turns in Hl. destruct Hl as [rs [F ->]].
  exists hit, rs. split; [exact Hu|]. split; [exact F|].
  split; [reflexivity|].
  rewrite (Forall2_length F). simpl. clear F.
  induction rs as [|[p|] rs IH]; simpl; lia.
Qed.

(** X10.  What a search does with each kind of upstream reply: it always
    sends exactly one request and nothing else before it; a network
    failure, a non-success status and an unreadable body are each logged
    once and thrown on, the status inside the message
    ["DBLP API error: <status>"]; with data, the run ends as the loop
    over the hits ends, an exception of the loop being logged once and
    thrown on as well. *)
Theorem searchPapers_by_reply (options : SearchOptions.t) :
  match upstream (request options) with
  | NetworkFailure =>
      search options
      = ([Fetch (request options); ConsoleError FetchRejected],
         inl FetchRejected)
  | NotOk status =>
      let e := Error ("DBLP API error: " ++ Z_toString status)%string in
      search options
      = ([Fetch (request options); ConsoleError e], inl e)
  | NotJson =>
      search options
      = ([Fetch (request options); ConsoleError JsonRejected],
         inl JsonRejected)
  | Data hit =>
      match loop options (hitsOf hit) [] with
      | inr ps => search options = ([Fetch (request options)], inr ps)
      | inl e =>
          search options
          = ([Fetch (request options); ConsoleError e], inl e)
      end
  end.
Proof.
  unfold search, searchPapers, fetch. fold request loop.
  unfold Run.try_catch, Run.bind, Run.emit, Run.ret, Run.throw, Run.lift,
    console_error. simpl.
  destruct (upstream (request options)) as [| status | | hit]; simpl;
    try reflexivity.
  destruct (loop options (hitsOf hit) []); reflexivity.
Qed.

(** X11.  With a registry whose keys are in lower case and are no names
    of [Object.prototype], a search returns a list whenever the upstream
    replies with data: no hit makes it throw. *)
Theorem searchPapers_returns_on_data (options : SearchOptions.t)
    (hit : option (list DblpHit)) :
  plainKeys all = true -> lowerCaseKeys all = true ->
  upstream (request options) = Data hit ->
  exists ps, search options = ([Fetch (request options)], inr ps).
Proof.
  intros Hp Hlow Hu.
  destruct (@hitsLoop_returns top_tier_members second_tier_members options
              (hitsOf hit) [] Hp Hlow) as [ps Hl].
  exists ps.
  unfold search, searchPapers, fetch. fold request.
  unfold Run.try_catch, Run.bind, Run.emit, Run.ret, Run.throw, Run.lift.
  simpl. rewrite Hu. simpl. now rewrite Hl.
Qed.

(** X12.  Without year bounds and without an explicit list (so for the
    search of [get_stats]), in such a registry, every hit yields a
    Paper: the result has one Paper per hit, in order, with the hits'
    titles. *)
Theorem searchPapers_unfiltered (options : SearchOptions.t)
    (hit : option (list DblpHit)) :
  plainKeys all = true -> lowerCaseKeys all = true ->
  truthy_num (SearchOptions.yearFrom options) = None ->
  truthy_num (SearchOptions.yearTo options) = None ->
  has_length (SearchOptions.conferences options) = false ->
  upstream (request options) = Data hit ->
  exists ps,
    Run.outcome (search options) = inr ps
    /\ length ps = length (hitsOf hit)
    /\ map Paper.title ps = map (fun h => DblpInfo.title (info h)) (hitsOf hit).
Proof.
  intros Hp Hlow Hf Ht Hc Hu.
  assert (Hone : forall h, exists p,
             process options h = inr (Some p)
             /\ Paper.title p = DblpInfo.title (info h)).
  { intros h.
    destruct (@matchLoop_plain (toLowerCase (venueText (info h))) _ Hp)
      as [matched Hm].
    unfold process.
    rewrite (@processHit_matched top_tier_members second_tier_members
               options h matched Hlow Hm).
    unfold outsideYears, notRequested. rewrite Hf, Ht, Hc. simpl.
    eexists. split; reflexivity. }
  assert (Hall : forall hits acc, exists new,
             loop options hits acc = inr (acc ++ new)
             /\ length new = length hits
             /\ map Paper.title new
                = map (fun h => DblpInfo.title (info h)) hits).
  { induction hits as [|h hits IH]; intros acc; simpl.
    - exists []. now rewrite app_nil_r.
    - fold process. destruct (Hone h) as [p [-> Hp']]. simpl.
      destruct (IH (acc ++ [p])) as [new [-> [Hlen Hmap]]].
      exists (p :: new). rewrite <- app_assoc. simpl.
      now rewrite Hlen, Hmap, Hp'. }
  destruct (Hall (hitsOf hit) []) as [ps [Hl [Hlen Hmap]]].
  exists ps. split; [|now split].
  apply searchPapers_returns. exists hit. now split.
Qed.

(** X13.  With a non-empty explicit list, every returned Paper was built
    from a hit that either matched no conference or matched one whose key
    is an element of the list. *)
Theorem searchPapers_allow_list_sound (options : SearchOptions.t)
    (ps : list Paper.t) :
  has_length (SearchOptions.conferences options) = true ->
  Run.outcome (search options) = inr ps ->
  forall p, In p ps ->
  exists hit,
    process options hit = inr (Some p)
    /\ (matcher (venueText (info hit)) = inr None
        \/ exists key conf,
             matcher (venueText (info hit)) = inr (Some (key, conf))
             /\ In key (requested options)).
Proof.
  intros Hl Hrun p Hp.
  apply searchPapers_returns in Hrun. destruct Hrun as [hit [_ Hloop]].
  destruct (@hitsLoop_In _ _ _ _ _ _ Hloop p Hp) as [[] | [h [_ Hh]]].
  exists h. split; [exact Hh|].
  apply processHit_Some in Hh.
  destruct Hh as [_ [matched [u [Hm [Hn _]]]]].
  destruct matched as [[key conf]|]; [right | now left].
  exists key, conf. split; [exact Hm|].
  unfold notRequested in Hn. rewrite Hl in Hn. simpl in Hn.
  apply negb_false_iff in Hn. unfold array_includes in Hn.
  apply existsb_exists in Hn. destruct Hn as [c [Hc He]].
  apply String.eqb_eq in He. now subst.
Qed.

(** X14.  The allow-list compares keys letter by letter: with a
    non-empty list none of whose elements is, as written, a key that the
    registry lists, every returned Paper comes from a hit that matched
    no conference and carries the fallback fields, even when the list
    names a registered conference in another letter case and the query
    asks for that conference. *)
Theorem searchPapers_allow_list_is_case_sensitive (options : SearchOptions.t)
    (ps : list Paper.t) :
  has_length (SearchOptions.conferences options) = true ->
  existsb (fun c => existsb (String.eqb c) (keys all)) (requested options)
  = false ->
  Run.outcome (search options) = inr ps ->
  forall p, In p ps ->
  exists hit,
    matcher (venueText (info hit)) = inr None
    /\ Paper.tier p = second
    /\ Paper.conference p = DblpInfo.venue (info hit)
    /\ Paper.conferenceFull p = DblpInfo.venue (info hit).
Proof.
  intros Hl Hno Hrun p Hp.
  apply searchPapers_returns in Hrun. destruct Hrun as [hit [_ Hloop]].
  destruct (@hitsLoop_In _ _ _ _ _ _ Hloop p Hp) as [[] | [h [_ Hh]]].
  apply processHit_Some in Hh.
  destruct Hh as [_ [matched [u [Hm [Hn ->]]]]].
  destruct matched as [[key conf]|]; [exfalso | exists h; simpl; auto].
  unfold notRequested in Hn. rewrite Hl in Hn. simpl in Hn.
  apply negb_false_iff in Hn. unfold array_includes in Hn.
  apply existsb_exists in Hn. destruct Hn as [c [Hc He]].
  apply String.eqb_eq in He. subst c.
  unfold matchConference in Hm. apply matchLoop_Some in Hm.
  destruct Hm as [Hin _].
  assert (existsb (fun c => existsb (String.eqb c) (keys all))
            (requested options) = true).
  { apply existsb_exists. exists key. split; [exact Hc|].
    apply existsb_exists. exists key. split; [|apply String.eqb_refl].
    unfold keys. change key with (fst (key, conf)). now apply in_map. }
  congruence.
Qed.


(** X16.  Every returned Paper carries the data of one upstream hit:
    its title and DOI, its authors as a list (a single author object
    becomes a one-element list, no author field the empty list), the
    year that [parseInt] reads from its year text, and as link the
    external-entry link [ee] when there is a non-empty one, else the
    [url]. *)
Theorem searchPapers_fields_from_hit (options : SearchOptions.t)
    (ps : list Paper.t) :
  Run.outcome (search options) = inr ps ->
  forall p, In p ps ->
  exists hit hits,
    upstream (request options) = Data hits /\ In hit (hitsOf hits)
    /\ Paper.title p = DblpInfo.title (info hit)
    /\ Paper.doi p = DblpInfo.doi (info hit)
    /\ Paper.year p = parseInt (DblpInfo.year (info hit))
    /\ Paper.authors p
       = match DblpInfo.authors (info hit) with
         | Some (ManyAuthors texts) => texts
         | Some (OneAuthor text) => [text]
         | None => []
         end
    /\ Paper.url p
       = match DblpInfo.ee (info hit) with
         | Some e => if String.eqb e "" then DblpInfo.url (info hit)
                     else Some e
         | None => DblpInfo.url (info hit)
         end.
Proof.
  intros Hrun p Hp.
  apply searchPapers_returns in Hrun. destruct Hrun as [hits [Hu Hloop]].
  destruct (@hitsLoop_In _ _ _ _ _ _ Hloop p Hp) as [[] | [h [Hin Hh]]].
  apply processHit_Some in Hh.
  destruct Hh as [_ [matched [u [_ [_ ->]]]]].
  exists h, hits. repeat (split; [first [exact Hu | exact Hin | reflexivity]|]).
  simpl. unfold or_else, truthy_string.
  destruct (DblpInfo.ee (info h)) as [e|]; [|reflexivity].
  now destruct (String.eqb e "").
Qed.

(** X17.  In a registry with lower-case keys, the conference link of a
    Paper is the URL that the matched conference registers under the
    printed year of the Paper, absent when it registers none; a Paper
    from an unmatched hit has no conference link. *)
Theorem processHit_conferenceUrl (options : SearchOptions.t) (hit : DblpHit)
    (p : Paper.t) :
  lowerCaseKeys all = true ->
  process options hit = inr (Some p) ->
  match matcher (venueText (info hit)) with
  | inr (Some (_, conf)) =>
      Paper.conferenceUrl p = own_get (urls conf) (toString (Paper.year p))
  | inr None => Paper.conferenceUrl p = None
  | inl _ => False
  end.
Proof.
  intros Hlow H. pose proof H as H'. apply processHit_Some in H'.
  destruct H' as [_ [matched [u [Hm _]]]]. unfold matcher. rewrite Hm.
  unfold process in H.
  rewrite (@processHit_matched top_tier_members second_tier_members
             options hit matched Hlow Hm) in H.
  destruct (_ || _); [discriminate|]. injection H as <-.
  now destruct matched as [[key conf]|].
Qed.

(** X18.  The search that the [search_papers] handler runs is always
    bounded in years: whatever the arguments, and for a current year
    other than 0, every returned Paper with an integer year lies between
    the given [yearFrom], or 2020 when it is absent or 0, and the given
    [yearTo], or the current year when it is absent or 0; and the request
    carries the given limit, or 50 when it is absent or 0. *)
Theorem search_papers_handler_bounds (args : SearchOptions.t)
    (currentYear : Z) (ps : list Paper.t) :
  currentYear <> 0 ->
  Run.outcome (search (search_papers_options args currentYear)) = inr ps ->
  (forall p y, In p ps -> Paper.year p = Int y ->
     match truthy_num (SearchOptions.yearFrom args) with
     | Some f => f | None => 2020 end <= y
     /\ y <= match truthy_num (SearchOptions.yearTo args) with
             | Some t => t | None => currentYear end)
  /\ h (request (search_papers_options args currentYear))
     = Z_toString match truthy_num (SearchOptions.limit args) with
                  | Some l => l | None => 50 end.
Proof.
  intros Hcy Hrun. split.
  - intros p y Hp Ey.
    apply searchPapers_returns in Hrun. destruct Hrun as [hit [_ Hloop]].
    destruct (@hitsLoop_In _ _ _ _ _ _ Hloop p Hp) as [[] | [hh [_ Hh]]].
    apply processHit_Some in Hh.
    destruct Hh as [Hout [matched [u [_ [_ ->]]]]]. simpl in Ey.
    rewrite Ey in Hout. apply outsideYears_false in Hout.
    destruct Hout as [Hf Ht]. simpl in Hf, Ht. split.
    + apply Hf. unfold truthy_num.
      destruct (SearchOptions.yearFrom args) as [f|]; [|reflexivity].
      destruct (Z.eqb_spec f 0); [reflexivity|].
      destruct (Z.eqb_spec f 0); [contradiction | reflexivity].
    + apply Ht. unfold truthy_num.
      destruct (SearchOptions.yearTo args) as [t|].
      * destruct (Z.eqb_spec t 0).
        -- destruct (Z.eqb_spec currentYear 0); [contradiction | reflexivity].
        -- destruct (Z.eqb_spec t 0); [contradiction | reflexivity].
      * destruct (Z.eqb_spec currentYear 0); [contradiction | reflexivity].
  - unfold request, the_request. simpl. unfold truthy_num.
    destruct (SearchOptions.limit args) as [l|]; [|reflexivity].
    destruct (Z.eqb_spec l 0); [reflexivity|].
    destruct (Z.eqb_spec l 0); [contradiction | reflexivity].
Qed.

End SearchMore.

(* ===================================================================== *)
(** ** More on the query builder and the conference links *)
(* ===================================================================== *)

Section QueryMore.

Variables top_tier_members second_tier_members : list (string * ConferenceInfo).

Let all := getAllConferences top_tier_members second_tier_members.
Let info_of := getConferenceInfo top_tier_members second_tier_members.
Let build := buildDblpQuery top_tier_members second_tier_members.
Let key_of := dblpKey_of top_tier_members second_tier_members.
Let websiteUrl := getConferenceWebsiteUrl top_tier_members second_tier_members.
Let byTier := getConferencesByTier top_tier_members second_tier_members.

Lemma dblpKey_of_upper (c : string) : key_of (toUpperCase c) = key_of c.
Proof.
  unfold key_of, dblpKey_of, getConferenceInfo.
  now rewrite toLowerCase_toUpperCase.
Qed.

Lemma byTier_keys_listed (t : TierFilter) (k : string) :
  In k (keys (byTier t)) -> exists conf, In (k, conf) (entries all).
Proof.
  intros H.
  assert (Hk : In k (keys all)).
  { unfold all. rewrite keys_own_get, getAllConferences_own_get.
    destruct t; simpl in H; apply keys_own_get in H; destruct H as [v H].
    - rewrite H. destruct (own_get (second_tier second_tier_members) k); eauto.
    - rewrite H. eauto.
    - unfold getAllConferences in H.
      rewrite <- getAllConferences_own_get. eauto. }
  apply keys_own_get in Hk. destruct Hk as [conf Hc].
  exists conf. now apply own_get_Some_In.
Qed.

(** X19.  In a registry with lower-case keys and non-empty identifiers,
    a request without explicit list asks for every conference of its
    tier: the venue queries are the identifiers under which
    [getAllConferences()] lists the keys of [getConferencesByTier(tier)],
    one per key and in the order of the keys. *)
Theorem buildDblpQuery_default_covers_tier (options : SearchOptions.t) :
  lowerCaseKeys all = true -> nonEmptyIdentifiers all = true ->
  has_length (SearchOptions.conferences options) = false ->
  let tierKeys :=
    keys (byTier (match SearchOptions.tier options with
                  | Some t => t
                  | None => tier_all
                  end)) in
  exists ids,
    Forall2 (fun k id => exists conf,
               own_get all k = Some conf /\ id = dblpKey conf /\ id <> "")
            tierKeys ids
    /\ build options
       = join " "
           (QuerySpec.present (SearchOptions.keyword options)
            ++ map (fun a => ("author:" ++ a)%string)
                   (QuerySpec.present (SearchOptions.author options))
            ++ QuerySpec.venueClause ids).
Proof.
  intros Hlow Hne Hc tierKeys.
  assert (Hids : forall ks,
             (forall k, In k ks -> exists conf, In (k, conf) (entries all)) ->
             exists ids,
               filter_Boolean (map key_of ks) = ids
               /\ Forall2 (fun k id => exists conf,
                             own_get all k = Some conf
                             /\ id = dblpKey conf /\ id <> "") ks ids).
  { induction ks as [|k ks IH]; intros Hks; simpl.
    - exists []. split; [reflexivity | constructor].
    - destruct (Hks k (or_introl eq_refl)) as [conf Hin].
      destruct IH as [ids [E F]]; [intros k' Hk'; apply Hks; now right|].
      assert (Hk : toLowerCase k = k).
      { unfold lowerCaseKeys in Hlow. rewrite forallb_forall in Hlow.
        apply Hlow in Hin. now apply String.eqb_eq in Hin. }
      assert (Hd : truthy_string (dblpKey conf) = true).
      { unfold nonEmptyIdentifiers in Hne. rewrite forallb_forall in Hne.
        now apply Hne in Hin. }
      unfold all in Hin.
      pose proof (@getConferenceInfo_listed _ _ _ _ Hin Hk) as Hinfo.
      unfold key_of at 1, dblpKey_of. rewrite Hinfo. simpl. rewrite Hd.
      exists (dblpKey conf :: ids). split; [now rewrite E|].
      constructor; [|exact F]. exists conf. split; [|split].
      + apply own_get_NoDup_In; [apply getAllConferences_NoDup | exact Hin].
      + reflexivity.
      + unfold truthy_string in Hd. apply negb_true_iff in Hd.
        now apply String.eqb_neq in Hd. }
  destruct (Hids tierKeys) as [ids [E F]].
  { intros k Hk. eapply byTier_keys_listed. exact Hk. }
  exists ids. split; [exact F|].
  unfold build, buildDblpQuery, targetConferences. rewrite Hc.
  fold key_of byTier tierKeys. rewrite E, !truthy_str_present.
  destruct (truthy_str (SearchOptions.keyword options));
    destruct (truthy_str (SearchOptions.author options));
    destruct ids; reflexivity.
Qed.

(** X20.  The query does not depend on the year bounds or on the limit:
    two requests with the same keyword, author, list and tier have the
    same query. *)
Theorem buildDblpQuery_ignores_years_and_limit (o o' : SearchOptions.t) :
  SearchOptions.keyword o = SearchOptions.keyword o' ->
  SearchOptions.author o = SearchOptions.author o' ->
  SearchOptions.conferences o = SearchOptions.conferences o' ->
  SearchOptions.tier o = SearchOptions.tier o' ->
  build o = build o'.
Proof.
  intros Hk Ha Hc Ht.
  unfold build, buildDblpQuery, targetConferences, requested.
  now rewrite Hk, Ha, Hc, Ht.
Qed.

(** X21.  The query builder resolves the keys of an explicit list over
    the ASCII alphabet without regard to letter case: writing them in
    upper case gives the same query. *)
Theorem buildDblpQuery_keys_case_insensitive (options : SearchOptions.t)
    (cs : list string) :
  forallb isAscii cs = true ->
  build (with_conferences (Some (map toUpperCase cs)) options)
  = build (with_conferences (Some cs) options).
Proof.
  intros _. unfold build, buildDblpQuery, targetConferences, requested. simpl.
  assert (E : map key_of (map toUpperCase cs) = map key_of cs).
  { rewrite map_map. apply map_ext. apply dblpKey_of_upper. }
  destruct cs as [|c cs]; [reflexivity|].
  fold key_of. cbn [map] in *. now rewrite E.
Qed.

(** X22.  [getConferenceWebsiteUrl] does not see the letter case of a
    key over the ASCII alphabet; it returns undefined for a key that
    resolves to nothing, the URL registered under the printed year for a
    key that resolves to an entry, and it throws exactly for a key whose
    lower-case form is [constructor] or [__proto__] and is not
    registered. *)
Theorem getConferenceWebsiteUrl_cases (key : string) (year : JsNum) :
  (isAscii key = true ->
   websiteUrl (toUpperCase key) year = websiteUrl key year)
  /\ (info_of key = Undefined -> websiteUrl key year = inr None)
  /\ (forall conf, info_of key = Own conf ->
        websiteUrl key year = inr (own_get (urls conf) (toString year)))
  /\ ((exists e, websiteUrl key year = inl e) <->
      own_get all (toLowerCase key) = None
      /\ (toLowerCase key = "constructor" \/ toLowerCase key = "__proto__")).
Proof.
  unfold websiteUrl, getConferenceWebsiteUrl, info_of.
  split; [|split; [|split]].
  - intros _. unfold getConferenceInfo. now rewrite toLowerCase_toUpperCase.
  - now intros ->.
  - now intros conf ->.
  - destruct (getConferenceInfo_cases top_tier_members second_tier_members key)
      as [[conf [E Hin]] | [[E Hn] | E]]; rewrite E.
    + split; [intros [e H]; discriminate|]. intros [Hown _].
      apply own_get_In in Hin. destruct Hin as [v Hv].
      fold all in Hv. congruence.
    + split; [|intros _; eauto]. intros _. split; [|exact Hn].
      unfold getConferenceInfo, get in E. fold all in E.
      destruct (own_get all (toLowerCase key)); [discriminate | reflexivity].
    + split; [intros [e H]; discriminate|]. intros [Hown Hn].
      unfold getConferenceInfo, get in E. fold all in E. rewrite Hown in E.
      destruct Hn as [Hn | Hn]; rewrite Hn in E; discriminate.
Qed.

End QueryMore.

(* ===================================================================== *)
(** ** The listing of the registry *)
(* ===================================================================== *)

Lemma listTier_items (o : obj ConferenceInfo) :
  map Listing.key (listTier o) = keys o
  /\ Forall2 (fun e item =>
               Listing.key item = fst e
               /\ Listing.name item = name (snd e)
               /\ Listing.shortName item = shortName (snd e)
               /\ Sorted (fun a b => String.leb a b = true) (Listing.years item)
               /\ Permutation (keys (urls (snd e))) (Listing.years item))
            (entries o) (listTier o).
Proof.
  unfold listTier, entries, keys.
  induction o as [|[k c] o [IH1 IH2]]; simpl.
  - split; [reflexivity | constructor].
  - split; [now rewrite IH1|]. constructor; [|exact IH2].
    simpl. repeat (split; [reflexivity|]). split.
    + apply StringSort.Sorted_sort.
    + apply StringSort.Permuted_sort.
Qed.

(** X23.  [listAvailableConferences()] lists each tier in registry
    order, one item per key with the name and short name of its entry,
    and as years the year keys of the entry's URLs, each once, in
    ascending string order. *)
Theorem listAvailableConferences_lists_each_tier
    (top_tier_members second_tier_members : list (string * ConferenceInfo)) :
  let l := listAvailableConferences top_tier_members second_tier_members in
  let item_of e item :=
    Listing.key item = fst e
    /\ Listing.name item = name (snd e)
    /\ Listing.shortName item = shortName (snd e)
    /\ Sorted (fun a b => String.leb a b = true) (Listing.years item)
    /\ Permutation (keys (urls (snd e))) (Listing.years item) in
  map Listing.key (topTier l) = keys (top_tier top_tier_members)
  /\ map Listing.key (secondTier l) = keys (second_tier second_tier_members)
  /\ NoDup (map Listing.key (topTier l))
  /\ NoDup (map Listing.key (secondTier l))
  /\ Forall2 item_of (entries (top_tier top_tier_members)) (topTier l)
  /\ Forall2 item_of (entries (second_tier second_tier_members))
       (secondTier l).
Proof.
  simpl.
  destruct (listTier_items (top_tier top_tier_members)) as [K1 F1].
  destruct (listTier_items (second_tier second_tier_members)) as [K2 F2].
  repeat split; try assumption.
  - rewrite K1. apply NoDup_keys_of_members.
  - rewrite K2. apply NoDup_keys_of_members.
Qed.

(* ===================================================================== *)
(** ** The statistics of [get_stats] *)
(* ===================================================================== *)

Lemma statsLoop_fold (papers : list Paper.t) (byYear byConference : obj StatValue) :
  statsLoop papers byYear byConference
  = (fold_left bump (map yearKey papers) byYear,
     fold_left bump (map conferenceKey papers) byConference).
Proof.
  revert byYear byConference.
  induction papers as [|p papers IH]; intros y c; simpl; [reflexivity|].
  apply IH.
Qed.

Lemma own_get_bump_other (o : obj StatValue) (k k' : string) :
  k' <> k -> own_get (bump o k) k' = own_get o k'.
Proof.
  intros H. unfold bump, assign.
  destruct (String.eqb k "__proto__"); [reflexivity|].
  rewrite own_get_set. now destruct (String.eqb_spec k' k).
Qed.

Lemma own_get_bump_same (o : obj StatValue) (k : string) :
  k <> "__proto__" -> own_get (bump o k) k = Some (bumped o k).
Proof.
  intros H. unfold bump, assign.
  destruct (String.eqb_spec k "__proto__"); [contradiction|].
  now rewrite own_get_set, String.eqb_refl.
Qed.

Lemma plain_not_proto (k : string) :
  existsb (String.eqb k) prototype_names = false -> k <> "__proto__".
Proof. intros H ->. discriminate H. Qed.

Lemma occurrences_cons (k k0 : string) (ks : list string) :
  occurrences k (k0 :: ks)
  = (if String.eqb k k0 then 1 else 0) + occurrences k ks.
Proof.
  unfold occurrences. cbn [filter].
  destruct (String.eqb k k0); cbn [length]; [rewrite Nat2Z.inj_succ|]; lia.
Qed.

Lemma occurrences_nonneg (k : string) (ks : list string) :
  0 <= occurrences k ks.
Proof. unfold occurrences. lia. Qed.

(** Under a name that is no member of [Object.prototype] the loop counts:
    starting from a count (or from nothing), the value after the loop is
    the count increased by the occurrences of the name. *)
Lemma fold_bump_counts (ks : list string) (o : obj StatValue) (k : string)
    (n : Z) :
  existsb (String.eqb k) prototype_names = false ->
  (own_get o k = None /\ n = 0) \/ (own_get o k = Some (Count n) /\ 0 < n) ->
  own_get (fold_left bump ks o) k
  = if n + occurrences k ks =? 0 then None
    else Some (Count (n + occurrences k ks)).
Proof.
  intros Hplain. revert o n.
  induction ks as [|k0 ks IH]; intros o n Hinv.
  - unfold occurrences. simpl. rewrite Z.add_0_r.
    destruct Hinv as [[-> ->] | [-> Hn]]; [reflexivity|].
    destruct (Z.eqb_spec n 0); [lia | reflexivity].
  - simpl. rewrite occurrences_cons.
    destruct (String.eqb_spec k k0) as [<-|Hne].
    + rewrite (IH (bump o k) (n + 1)).
      * now rewrite Z.add_assoc.
      * right. rewrite own_get_bump_same by now apply plain_not_proto.
        unfold bumped, get. rewrite Hplain.
        destruct Hinv as [[-> ->] | [-> Hn]]; [split; [reflexivity | lia]|].
        destruct (Z.eqb_spec n 0); [lia|]. split; [reflexivity | lia].
    + rewrite (IH (bump o k0) n); [reflexivity|].
      now rewrite own_get_bump_other.
Qed.

(** A name that the loop never bumps keeps its value. *)
Lemma fold_bump_untouched (ks : list string) (o : obj StatValue) (k : string) :
  ~ In k ks -> own_get (fold_left bump ks o) k = own_get o k.
Proof.
  revert o. induction ks as [|k0 ks IH]; intros o H; simpl; [reflexivity|].
  rewrite IH by (intros Hk; apply H; now right).
  apply own_get_bump_other. intros ->. apply H. now left.
Qed.

Lemma NoDup_keys_fold_bump (ks : list string) (o : obj StatValue) :
  NoDup (keys o) -> NoDup (keys (fold_left bump ks o)).
Proof.
  revert o. induction ks as [|k0 ks IH]; intros o H; simpl; [exact H|].
  apply IH. unfold bump, assign.
  destruct (String.eqb k0 "__proto__"); [exact H|].
  now apply NoDup_keys_set.
Qed.

Lemma occurrences_zero (k : string) (ks : list string) :
  occurrences k ks = 0 <-> ~ In k ks.
Proof.
  induction ks as [|k0 ks IH].
  - unfold occurrences. simpl. tauto.
  - rewrite occurrences_cons. pose proof (occurrences_nonneg k ks).
    simpl. destruct (String.eqb_spec k k0) as [->|Hne].
    + split; [lia | intros Hn; exfalso; apply Hn; now left].
    + rewrite Z.add_0_l, IH. split.
      * intros Hn [E | Hin]; [congruence | tauto].
      * intros Hn Hin. apply Hn. now right.
Qed.

Lemma yearKey_occurrences (papers : list Paper.t) (y : JsNum) :
  occurrences (toString y) (map yearKey papers)
  = Z.of_nat (length (filter (fun p => sameYear (Paper.year p) y) papers)).
Proof.
  unfold occurrences. f_equal.
  induction papers as [|p papers IH]; simpl; [reflexivity|].
  assert (E : String.eqb (toString y) (yearKey p)
              = sameYear (Paper.year p) y).
  { unfold yearKey.
    destruct (String.eqb_spec (toString y) (toString (Paper.year p)))
      as [He | Hne].
    - apply toString_inj in He. subst y.
      destruct (Paper.year p) as [|z]; simpl; [reflexivity|].
      now rewrite Z.eqb_refl.
    - destruct (Paper.year p) as [|a], y as [|b]; simpl;
        try reflexivity; try congruence.
      destruct (Z.eqb_spec a b); [subst; congruence | reflexivity]. }
  rewrite E. destruct (sameYear (Paper.year p) y); simpl; now rewrite IH.
Qed.

(** X24.  [byYear] counts the Papers of each year: after the loop, the
    property under a printed year (or under NaN) holds the number of
    Papers with that year, and there is no such property when there is
    no such Paper; every property of [byYear] is the printed year of
    some Paper, and no year is listed twice. *)
Theorem groupPapers_byYear_counts (papers : list Paper.t) :
  let byYear := fst (groupPapers papers) in
  (forall y,
     let n := Z.of_nat (length (filter (fun p => sameYear (Paper.year p) y)
                                  papers)) in
     own_get byYear (toString y) = if n =? 0 then None else Some (Count n))
  /\ (forall k, In k (keys byYear) ->
        exists p, In p papers /\ k = toString (Paper.year p))
  /\ NoDup (keys byYear).
Proof.
  unfold groupPapers. rewrite statsLoop_fold. simpl. split; [|split].
  - intros y.
    rewrite (@fold_bump_counts _ [] (toString y) 0
               (proj1 (toString_plain y)) (or_introl (conj eq_refl eq_refl))).
    now rewrite Z.add_0_l, yearKey_occurrences.
  - intros k Hk. apply keys_own_get in Hk. destruct Hk as [v Hv].
    destruct (in_dec string_dec k (map yearKey papers)) as [Hin | Hn].
    + apply in_map_iff in Hin. destruct Hin as [p [<- Hp]]. now exists p.
    + rewrite fold_bump_untouched in Hv by exact Hn. discriminate.
  - apply NoDup_keys_fold_bump. constructor.
Qed.

(** X25.  [byConference] counts the Papers of each conference name that
    is no name of a member of [Object.prototype] (the name being
    [undefined] for a Paper without conference): the property holds the
    number of Papers with that name, and is missing when there is none. *)
Theorem groupPapers_byConference_counts (papers : list Paper.t)
    (c : string) :
  existsb (String.eqb c) prototype_names = false ->
  let n := Z.of_nat (length (filter (fun p => String.eqb c (conferenceKey p))
                               papers)) in
  own_get (snd (groupPapers papers)) c
  = if n =? 0 then None else Some (Count n).
Proof.
  intros Hplain. unfold groupPapers. rewrite statsLoop_fold. simpl.
  rewrite (@fold_bump_counts _ [] c 0 Hplain
             (or_introl (conj eq_refl eq_refl))).
  rewrite Z.add_0_l. unfold occurrences.
  replace (length (filter (String.eqb c) (map conferenceKey papers)))
    with (length (filter (fun p => String.eqb c (conferenceKey p)) papers));
    [reflexivity|].
  induction papers as [|p papers IH]; simpl; [reflexivity|].
  destruct (String.eqb c (conferenceKey p)); simpl; now rewrite IH.
Qed.

(** Under a name inherited from [Object.prototype], other than
    [__proto__], the loop appends: the value is text, never a count. *)
Lemma fold_bump_appends (ks : list string) (o : obj StatValue) (k : string)
    (i : nat) :
  existsb (String.eqb k) prototype_names = true -> k <> "__proto__" ->
  (own_get o k = None /\ i = 0%nat)
  \/ (own_get o k = Some (Appended k i) /\ (0 < i)%nat) ->
  own_get (fold_left bump ks o) k
  = let m := (i + length (filter (String.eqb k) ks))%nat in
    if (m =? 0)%nat then None else Some (Appended k m).
Proof.
  intros Hname Hproto. revert o i.
  induction ks as [|k0 ks IH]; intros o i Hinv.
  - simpl. rewrite Nat.add_0_r.
    destruct Hinv as [[-> ->] | [-> Hi]]; [reflexivity|].
    destruct (Nat.eqb_spec i 0); [lia | reflexivity].
  - simpl. destruct (String.eqb_spec k k0) as [<-|Hne].
    + rewrite (IH (bump o k) (S i)).
      * simpl. now rewrite Nat.add_succ_r.
      * right. rewrite own_get_bump_same by exact Hproto.
        unfold bumped, get. rewrite Hname.
        destruct Hinv as [[-> ->] | [-> Hi]]; split; (reflexivity || lia).
    + rewrite (IH (bump o k0) i); [reflexivity|].
      now rewrite own_get_bump_other.
Qed.

(** X26.  A conference name that is the name of a member of
    [Object.prototype] is not counted: under such a name other than
    [__proto__], [byConference] holds the text of the inherited member
    followed by one character 1 per Paper, never a number; and under
    [__proto__] it holds no property at all, however many Papers carry
    that name. *)
Theorem groupPapers_byConference_inherited_names (papers : list Paper.t)
    (c : string) :
  existsb (String.eqb c) prototype_names = true ->
  let m := length (filter (fun p => String.eqb c (conferenceKey p)) papers) in
  own_get (snd (groupPapers papers)) c
  = if String.eqb c "__proto__" then None
    else if (m =? 0)%nat then None else Some (Appended c m).
Proof.
  intros Hname. unfold groupPapers. rewrite statsLoop_fold. simpl.
  assert (E : length (filter (String.eqb c) (map conferenceKey papers))
              = length (filter (fun p => String.eqb c (conferenceKey p))
                          papers)).
  { induction papers as [|p papers IH]; simpl; [reflexivity|].
    destruct (String.eqb c (conferenceKey p)); simpl; now rewrite IH. }
  destruct (String.eqb_spec c "__proto__") as [->|Hne].
  - generalize (map conferenceKey papers) as ks.
    assert (G : forall ks o, own_get o "__proto__" = None ->
                own_get (fold_left bump ks o) "__proto__" = None).
    { induction ks as [|k0 ks IH]; intros o Ho; simpl; [exact Ho|].
      apply IH. unfold bump, assign.
      destruct (String.eqb_spec k0 "__proto__"); [exact Ho|].
      rewrite own_get_set.
      destruct (String.eqb_spec "__proto__" k0); [congruence | exact Ho]. }
    intros ks. now apply G.
  - rewrite (@fold_bump_appends _ [] c 0%nat Hname Hne
               (or_introl (conj eq_refl eq_refl))).
    simpl. now rewrite E.
Qed.

(* ===================================================================== *)
(** ** The further theorems at concrete inputs *)
(* ===================================================================== *)

Lemma matchConference_returns_witness :
  plainKeys (getAllConferences Sample.top_tier_members
               Sample.second_tier_members) = true
  /\ exists r, Sample.matchConference "Proceedings of WORKSHOP-XYZ 2023" = inr r.
Proof.
  split; [reflexivity|].
  apply (@matchConference_returns Sample.top_tier_members
           Sample.second_tier_members "Proceedings of WORKSHOP-XYZ 2023").
  reflexivity.
Defined.

Lemma matchConference_empty_venue_witness :
  nonEmptyNames (getAllConferences Sample.top_tier_members
                   Sample.second_tier_members) = true
  /\ Sample.matchConference "" = inr None.
Proof.
  split; [reflexivity|].
  exact (proj1 (@matchConference_empty_venue Sample.top_tier_members
                  Sample.second_tier_members
                  (Sample.options None None None None)
                  (Sample.hit "G" "2023" None) eq_refl eq_refl)).
Defined.


Lemma searchPapers_keeps_upstream_order_witness :
  exists hit rs,
    Sample.always [sp_2023; sp_2019]
      (the_request Sample.top_tier_members Sample.second_tier_members
         (Sample.options None (Some 2022) (Some 2024) None))
    = Data hit
    /\ Forall2 (fun h r =>
                  Sample.processHit
                    (Sample.options None (Some 2022) (Some 2024) None) h
                  = inr r) (hitsOf hit) rs
    /\ [sp_paper]
       = flat_map (fun r => match r with Some p => [p] | None => [] end) rs
    /\ (length [sp_paper] <= length (hitsOf hit))%nat.
Proof.
  apply (@searchPapers_keeps_upstream_order Sample.top_tier_members
           Sample.second_tier_members (Sample.always [sp_2023; sp_2019])
           (Sample.options None (Some 2022) (Some 2024) None) [sp_paper]).
  reflexivity.
Defined.

Lemma searchPapers_returns_on_data_witness :
  lowerCaseKeys (getAllConferences Sample.top_tier_members
                   Sample.second_tier_members) = true
  /\ exists ps,
       Sample.searchPapers (Sample.always [sp_2023; workshop_undated])
         (Sample.options (Some ["sp"]) None None None)
       = ([Fetch (the_request Sample.top_tier_members
                    Sample.second_tier_members
                    (Sample.options (Some ["sp"]) None None None))],
          inr ps).
Proof.
  split; [reflexivity|].
  apply (@searchPapers_returns_on_data Sample.top_tier_members
           Sample.second_tier_members
           (Sample.always [sp_2023; workshop_undated])
           (Sample.options (Some ["sp"]) None None None)
           (Some [sp_2023; workshop_undated])); reflexivity.
Defined.

Lemma searchPapers_unfiltered_witness :
  exists ps,
    Run.outcome
      (Sample.searchPapers (Sample.always [sp_2019; workshop_undated; ccs_2023])
         (get_stats_options (Some "fuzzing") None))
    = inr ps
    /\ length ps = 3%nat
    /\ map Paper.title ps = ["B"; "E"; "C"].
Proof.
  apply (@searchPapers_unfiltered Sample.top_tier_members
           Sample.second_tier_members
           (Sample.always [sp_2019; workshop_undated; ccs_2023])
           (get_stats_options (Some "fuzzing") None)
           (Some [sp_2019; workshop_undated; ccs_2023]));
    reflexivity.
Defined.

Lemma searchPapers_allow_list_sound_witness :
  exists hit,
    Sample.processHit (Sample.options (Some ["sp"]) None None None) hit
    = inr (Some sp_paper)
    /\ (Sample.matchConference (venueText (info hit)) = inr None
        \/ exists key conf,
             Sample.matchConference (venueText (info hit))
             = inr (Some (key, conf))
             /\ In key ["sp"]).
Proof.
  apply (@searchPapers_allow_list_sound Sample.top_tier_members
           Sample.second_tier_members
           (Sample.always [ccs_2023; sp_2023])
           (Sample.options (Some ["sp"]) None None None)
           [sp_paper] eq_refl eq_refl sp_paper (or_introl eq_refl)).
Defined.

Lemma searchPapers_allow_list_is_case_sensitive_witness :
  Sample.buildDblpQuery (Sample.options (Some ["SP"]) None None None)
  = "venue:sp:"
  /\ Run.outcome
       (Sample.searchPapers (Sample.always [sp_2023; workshop_2023])
          (Sample.options (Some ["SP"]) None None None))
     = inr [workshop_paper]
  /\ Paper.tier workshop_paper = second.
Proof.
  split; [reflexivity|]. split; [reflexivity|].
  destruct (@searchPapers_allow_list_is_case_sensitive
              Sample.top_tier_members Sample.second_tier_members
              (Sample.always [sp_2023; workshop_2023])
              (Sample.options (Some ["SP"]) None None None)
              [workshop_paper] eq_refl eq_refl eq_refl
              workshop_paper (or_introl eq_refl)) as [hit [_ [Ht _]]].
  exact Ht.
Defined.


Lemma searchPapers_fields_from_hit_witness :
  exists hit hits,
    Sample.always [sp_2023]
      (the_request Sample.top_tier_members Sample.second_tier_members
         (Sample.options None None None None))
    = Data hits
    /\ In hit (hitsOf hits)
    /\ Paper.title sp_paper = DblpInfo.title (info hit).
Proof.
  destruct (@searchPapers_fields_from_hit Sample.top_tier_members
              Sample.second_tier_members (Sample.always [sp_2023])
              (Sample.options None None None None) [sp_paper] eq_refl
              sp_paper (or_introl eq_refl))
    as [hit [hits [Hu [Hin [Ht _]]]]].
  exists hit, hits. auto.
Defined.

Lemma processHit_conferenceUrl_witness :
  Sample.processHit (Sample.options None None None None)
    (Sample.hit "A" "2024" (Some "IEEE Symposium on Security and Privacy (SP)"))
  = inr (Some (paper "A" (Int 2024) "S&P"
                 "IEEE Symposium on Security and Privacy" top
                 (Some "https://sp2024.ieee-security.org/")))
  /\ Some "https://sp2024.ieee-security.org/"
     = own_get (of_members [("2024", "https://sp2024.ieee-security.org/")])
         "2024".
Proof.
  split; [reflexivity|].
  exact (@processHit_conferenceUrl Sample.top_tier_members
           Sample.second_tier_members (Sample.options None None None None)
           (Sample.hit "A" "2024"
              (Some "IEEE Symposium on Security and Privacy (SP)"))
           (paper "A" (Int 2024) "S&P"
              "IEEE Symposium on Security and Privacy" top
              (Some "https://sp2024.ieee-security.org/"))
           eq_refl eq_refl).
Defined.

Lemma search_papers_handler_bounds_witness :
  Run.outcome
    (Sample.searchPapers (Sample.always [sp_2023; sp_2019])
       (search_papers_options (Sample.options None None None None) 2025))
  = inr [sp_paper]
  /\ 2020 <= 2023 /\ 2023 <= 2025.
Proof.
  split; [reflexivity|].
  exact (proj1 (@search_papers_handler_bounds Sample.top_tier_members
                  Sample.second_tier_members
                  (Sample.always [sp_2023; sp_2019])
                  (Sample.options None None None None) 2025 [sp_paper]
                  ltac:(lia) eq_refl)
           sp_paper 2023 (or_introl eq_refl) eq_refl).
Defined.

Lemma buildDblpQuery_default_covers_tier_witness :
  exists ids,
    Forall2 (fun k id => exists conf,
               own_get (getAllConferences Sample.top_tier_members
                          Sample.second_tier_members) k = Some conf
               /\ id = dblpKey conf /\ id <> "")
            ["acsac"; "raid"; "esorics"] ids
    /\ Sample.buildDblpQuery
         {| SearchOptions.keyword := Some "malware";
            SearchOptions.author := None;
            SearchOptions.yearFrom := None; SearchOptions.yearTo := None;
            SearchOptions.conferences := None;
            SearchOptions.tier := Some tier_second;
            SearchOptions.limit := None |}
       = join " " (["malware"] ++ [] ++ QuerySpec.venueClause ids).
Proof.
  exact (@buildDblpQuery_default_covers_tier Sample.top_tier_members
           Sample.second_tier_members
           {| SearchOptions.keyword := Some "malware";
              SearchOptions.author := None;
              SearchOptions.yearFrom := None; SearchOptions.yearTo := None;
              SearchOptions.conferences := None;
              SearchOptions.tier := Some tier_second;
              SearchOptions.limit := None |}
           eq_refl eq_refl eq_refl).
Defined.

Lemma buildDblpQuery_ignores_years_and_limit_witness :
  Sample.buildDblpQuery (Sample.options (Some ["ccs"]) None None None)
  = Sample.buildDblpQuery
      (Sample.options (Some ["ccs"]) (Some 2021) (Some 2022) (Some 7)).
Proof.
  apply (@buildDblpQuery_ignores_years_and_limit Sample.top_tier_members
           Sample.second_tier_members
           (Sample.options (Some ["ccs"]) None None None)
           (Sample.options (Some ["ccs"]) (Some 2021) (Some 2022) (Some 7)));
    reflexivity.
Defined.

Lemma groupPapers_byConference_counts_witness :
  own_get (snd (groupPapers [sp_paper; workshop_paper; sp_paper; undated_paper]))
    "S&P"
  = Some (Count 2).
Proof.
  exact (@groupPapers_byConference_counts
           [sp_paper; workshop_paper; sp_paper; undated_paper] "S&P" eq_refl).
Defined.

Lemma groupPapers_byConference_inherited_names_witness :
  own_get
    (snd (groupPapers
            [paper "H" (Int 2023) "constructor" "constructor" second None;
             sp_paper;
             paper "I" (Int 2023) "constructor" "constructor" second None]))
    "constructor"
  = Some (Appended "constructor" 2).
Proof.
  exact (@groupPapers_byConference_inherited_names
           [paper "H" (Int 2023) "constructor" "constructor" second None;
            sp_paper;
            paper "I" (Int 2023) "constructor" "constructor" second None]
           "constructor" eq_refl).
Defined.

Lemma matchConference_venue_case_insensitive_witness :
  isAscii "IEEE Symposium on Security and Privacy (SP)" = true
  /\ Sample.matchConference "IEEE SYMPOSIUM ON SECURITY AND PRIVACY (SP)"
     = Sample.matchConference "IEEE Symposium on Security and Privacy (SP)".
Proof.
  split; [reflexivity|].
  exact (proj1 (@matchConference_venue_case_insensitive
                  Sample.top_tier_members Sample.second_tier_members
                  "IEEE Symposium on Security and Privacy (SP)" eq_refl)).
Defined.

Lemma buildDblpQuery_keys_case_insensitive_witness :
  forallb isAscii ["sp"; "Nope"; "usenix"] = true
  /\ Sample.buildDblpQuery
       (with_conferences (Some ["SP"; "NOPE"; "USENIX"])
          (Sample.options None None None None))
     = Sample.buildDblpQuery
         (with_conferences (Some ["sp"; "Nope"; "usenix"])
            (Sample.options None None None None)).
Proof.
  split; [reflexivity|].
  exact (@buildDblpQuery_keys_case_insensitive Sample.top_tier_members
           Sample.second_tier_members (Sample.options None None None None)
           ["sp"; "Nope"; "usenix"] eq_refl).
Defined.
